(** * PromptManager: a versioned prompt collection mirrored to a blob store

    Shallow embedding of [prompt_manager.py]: the [Prompt] pydantic model,
    the [PromptManager] object with its instance attributes, the local file
    system and the remote container it talks to, and the methods
    [__init__], [_load_prompts], [_save_prompts], [create_prompt],
    [get_prompts], [update_prompt], [_find_prompt_index] and
    [_find_prompt_index_by_id].

    Python exceptions are modelled by a state-and-exception monad in which a
    raised exception keeps every mutation performed before it. *)

From stdpp Require Import gmap strings list fin_maps pretty.
From Stdlib Require Import ZArith Ascii.

Local Open Scope Z_scope.

(** ** Python values

    The values that flow through the program: the field map handed to
    [create_prompt] and [update_prompt], the attribute values of a [Prompt],
    and the documents [json.load] returns.  Dictionaries have string keys
    (the JSON objects of the snapshot, [Dict[str, Any]] in the signatures);
    Python compares dictionaries regardless of insertion order, which is
    the extensional equality of [gmap].  Tuples are values that the JSON
    text does not keep apart from lists.  Floats, bytes, sets and
    dictionaries with keys that are not strings are outside the embedding:
    no statement below speaks about them. *)

#[warnings="-register-all"] Inductive pyval : Type :=
| VNone
| VBool (b : bool)
| VInt (z : Z)
| VStr (s : string)
| VList (l : list pyval)
| VDict (d : gmap string pyval)
| VTuple (l : list pyval).

(** [v == s] for a value [v] and a [str] [s]: a string equals only an equal
    string.  Every [==] of the program has a [str] on its right-hand side
    (the annotated arguments of [get_prompts], [update_prompt] and
    [_find_prompt_index]). *)
Definition py_eq_str (v : pyval) (s : string) : bool :=
  match v with
  | VStr s' => bool_decide (s' = s)
  | _ => false
  end.

(** Exceptions the program can meet.  All of them are instances of
    [Exception]; only [ValidationError] is caught by
    [except ValidationError]. *)
Inductive exn : Type :=
| AttributeError (attr : string)
| ValidationError
| TypeError
| JSONDecodeError
| IndexError
| FileNotFoundError
| ResourceNotFoundError.

Definition is_Exception (e : exn) : bool := true.

Definition is_ValidationError (e : exn) : bool :=
  match e with ValidationError => true | _ => false end.

(** [x + 1] on Python values, as in [existing_prompt.version + 1]: defined on
    [int] (and [bool], a subclass of [int]); [None], [str], [list] and
    [dict] raise [TypeError]. *)
Definition py_add1 (v : pyval) : exn + pyval :=
  match v with
  | VInt z => inr (VInt (z + 1))
  | VBool b => inr (VInt (Z.b2z b + 1))
  | _ => inl TypeError
  end.

(** Iteration [for x in data] over a Python value: a list or a tuple
    yields its elements, a dictionary its keys, a string its characters;
    the other values are not iterable. *)
Definition py_iter (data : pyval) : exn + list pyval :=
  match data with
  | VList l | VTuple l => inr l
  | VDict d => inr (VStr <$> (map_to_list d).*1)
  | VStr s => inr ((λ c, VStr (String c EmptyString)) <$> String.list_ascii_of_string s)
  | _ => inl TypeError
  end.

(** ** The Prompt model *)

Module Prompt.

(** [class Prompt(BaseModel)].  A field holds a Python value: construction
    validates it, [model_copy(update=...)] does not.  [extra] is the part
    of the instance dictionary that names no declared field. *)
Record t : Type := mk {
  id : pyval;
  datapoint : pyval;
  clause : pyval;
  created_by : pyval;
  query_prompt : pyval;
  version : pyval;
  evaluated : pyval;
  status : pyval;
  score : pyval;
  notes : pyval;
  extra : gmap string pyval
}.

Definition fields : list string :=
  ["id"; "datapoint"; "clause"; "created_by"; "query_prompt";
   "version"; "evaluated"; "status"; "score"; "notes"].

(** Attribute assignments [p.version = v], [p.evaluated = v] and
    [p.status = v]; the model does not validate on assignment. *)
Definition set_version (v : pyval) (p : t) : t :=
  mk (id p) (datapoint p) (clause p) (created_by p) (query_prompt p)
     v (evaluated p) (status p) (score p) (notes p) (extra p).

Definition set_evaluated (v : pyval) (p : t) : t :=
  mk (id p) (datapoint p) (clause p) (created_by p) (query_prompt p)
     (version p) v (status p) (score p) (notes p) (extra p).

Definition set_status (v : pyval) (p : t) : t :=
  mk (id p) (datapoint p) (clause p) (created_by p) (query_prompt p)
     (version p) (evaluated p) v (score p) (notes p) (extra p).

(** [p.model_dump()]: the dictionary of the declared fields. *)
Definition model_dump (p : t) : gmap string pyval :=
  <["id" := id p]> (<["datapoint" := datapoint p]> (<["clause" := clause p]>
  (<["created_by" := created_by p]> (<["query_prompt" := query_prompt p]>
  (<["version" := version p]> (<["evaluated" := evaluated p]>
  (<["status" := status p]> (<["score" := score p]>
  (<["notes" := notes p]> ∅))))))))).

(** [p.model_copy(update=update)]: a copy whose instance dictionary is
    overwritten with [update], key by key and without validation. *)
Definition model_copy (p : t) (update : gmap string pyval) : t :=
  mk (default (id p) (update !! "id"))
     (default (datapoint p) (update !! "datapoint"))
     (default (clause p) (update !! "clause"))
     (default (created_by p) (update !! "created_by"))
     (default (query_prompt p) (update !! "query_prompt"))
     (default (version p) (update !! "version"))
     (default (evaluated p) (update !! "evaluated"))
     (default (status p) (update !! "status"))
     (default (score p) (update !! "score"))
     (default (notes p) (update !! "notes"))
     (filter (λ kv, kv.1 ∉ fields) update ∪ extra p).

(** The shape construction guarantees: every field has its annotated
    type and no undeclared attribute is present. *)
Definition is_str (v : pyval) : bool :=
  match v with VStr _ => true | _ => false end.
Definition is_opt_str (v : pyval) : bool :=
  match v with VNone | VStr _ => true | _ => false end.
Definition is_opt_int (v : pyval) : bool :=
  match v with VNone | VInt _ => true | _ => false end.
Definition is_opt_dict (v : pyval) : bool :=
  match v with VNone | VDict _ => true | _ => false end.

Definition valid (p : t) : bool :=
  is_opt_str (id p) && is_str (datapoint p) && is_str (clause p)
  && is_str (created_by p) && is_str (query_prompt p)
  && is_opt_int (version p) && is_opt_int (evaluated p)
  && is_opt_str (status p) && is_opt_dict (score p)
  && is_opt_str (notes p) && bool_decide (dom (extra p) = ∅).

End Prompt.

(** ** The outside world *)

(** What [print] writes. *)
Inductive msg : Type :=
| BlobNotFound
| ErrorLoading (e : exn)
| ErrorSaving (e : exn)
| ValidationErrorCreating (e : exn)
| ValidationErrorUpdating (e : exn)
| NoPromptFound (id : string)
| InvalidSearchField.

(** Azure handles.  Building a client performs no request. *)
Inductive Credential : Type := DefaultAzureCredential.

Record BlobServiceClient : Type := mkBlobServiceClient {
  account_url : string;
  service_credential : Credential
}.

Record ContainerClient : Type := mkContainerClient {
  container_account : string;
  container : string
}.

Record BlobClient : Type := mkBlobClient {
  blob_account : string;
  blob_container : string;
  blob_name : string
}.

Definition get_container_client (c : BlobServiceClient) (name : string)
  : ContainerClient :=
  mkContainerClient (account_url c) name.

Definition get_blob_client (c : ContainerClient) (blob : string) : BlobClient :=
  mkBlobClient (container_account c) (container c) blob.

Definition blob_key (b : BlobClient) : string * string * string :=
  (blob_account b, blob_container b, blob_name b).

(** The local file system, the blobs of the storage account and the
    standard output. *)
Record World : Type := mkWorld {
  files : gmap string string;
  blobs : gmap (string * string * string) string;
  stdout : list msg
}.

(** ** The PromptManager object

    An attribute is [None] until [__init__] assigns it; reading it before
    raises [AttributeError]. *)
Record PromptManager : Type := mkPromptManager {
  file_path : option string;
  prompts : option (list Prompt.t);
  connection_url : option string;
  container_name : option string;
  credential : option Credential;
  blob_service_client : option BlobServiceClient;
  container_client : option ContainerClient
}.

Definition new_object : PromptManager :=
  mkPromptManager None None None None None None None.

Record State : Type := mkState {
  self : PromptManager;
  world : World
}.

(** ** The monad of the methods

    A method runs on the object and the world and either returns a value or
    raises; in both cases the state it leaves is the one reached so far. *)

Definition M (A : Type) : Type := State → (exn + A) * State.

#[global] Instance M_ret : MRet M := λ A (a : A) st, (inr a, st).

#[global] Instance M_bind : MBind M := λ A B (f : A → M B) (m : M A) st,
  match m st with
  | (inr a, st') => f a st'
  | (inl e, st') => (inl e, st')
  end.

Definition raise {A : Type} (e : exn) : M A := λ st, (inl e, st).

Definition lift {A : Type} (r : exn + A) : M A := λ st, (r, st).

(** [try: body / except <class> as e: handler e]. *)
Definition try_except {A : Type} (body : M A) (catches : exn → bool)
    (handler : exn → M A) : M A := λ st,
  match body st with
  | (inl e, st') => if catches e then handler e st' else (inl e, st')
  | r => r
  end.

Definition print (m : msg) : M unit := λ st,
  (inr (), mkState (self st)
     (mkWorld (files (world st)) (blobs (world st)) (stdout (world st) ++ [m]))).

(** Reading an attribute of [self]. *)
Definition getattr {A : Type} (field : PromptManager → option A)
    (name : string) : M A := λ st,
  match field (self st) with
  | Some a => (inr a, st)
  | None => (inl (AttributeError name), st)
  end.

(** [self.local_file_path]: the class declares no such attribute and no
    method assigns it ([__init__] stores the path as [file_path]). *)
Definition get_local_file_path : M string :=
  raise (AttributeError "local_file_path").

(** Assigning the attributes of [self]. *)
Definition setattr (f : PromptManager → PromptManager) : M unit := λ st,
  (inr (), mkState (f (self st)) (world st)).

Definition with_file_path (v : string) (o : PromptManager) : PromptManager :=
  mkPromptManager (Some v) (prompts o) (connection_url o) (container_name o)
    (credential o) (blob_service_client o) (container_client o).

Definition with_prompts (v : list Prompt.t) (o : PromptManager) : PromptManager :=
  mkPromptManager (file_path o) (Some v) (connection_url o) (container_name o)
    (credential o) (blob_service_client o) (container_client o).

Definition with_connection_url (v : string) (o : PromptManager) : PromptManager :=
  mkPromptManager (file_path o) (prompts o) (Some v) (container_name o)
    (credential o) (blob_service_client o) (container_client o).

Definition with_container_name (v : string) (o : PromptManager) : PromptManager :=
  mkPromptManager (file_path o) (prompts o) (connection_url o) (Some v)
    (credential o) (blob_service_client o) (container_client o).

Definition with_credential (v : Credential) (o : PromptManager) : PromptManager :=
  mkPromptManager (file_path o) (prompts o) (connection_url o) (container_name o)
    (Some v) (blob_service_client o) (container_client o).

Definition with_blob_service_client (v : BlobServiceClient) (o : PromptManager)
  : PromptManager :=
  mkPromptManager (file_path o) (prompts o) (connection_url o) (container_name o)
    (credential o) (Some v) (container_client o).

Definition with_container_client (v : ContainerClient) (o : PromptManager)
  : PromptManager :=
  mkPromptManager (file_path o) (prompts o) (connection_url o) (container_name o)
    (credential o) (blob_service_client o) (Some v).

(** Files and blobs. *)
Definition modify_world (f : World → World) : M unit := λ st,
  (inr (), mkState (self st) (f (world st))).

(** [open(path, "w")] and [open(path, "wb")] create or truncate the file;
    [write] then stores the data. *)
Definition write_file (path data : string) : M unit :=
  modify_world (λ w, mkWorld (<[path := data]> (files w)) (blobs w) (stdout w)).

Definition open_truncate (path : string) : M unit := write_file path EmptyString.

(** [open(path, "r")] and [open(path, "rb")] followed by a read. *)
Definition read_file (path : string) : M string := λ st,
  match files (world st) !! path with
  | Some data => (inr data, st)
  | None => (inl FileNotFoundError, st)
  end.

Definition blob_exists (b : BlobClient) : M bool := λ st,
  (inr (bool_decide (is_Some (blobs (world st) !! blob_key b))), st).

(** [blob_client.download_blob().readall()]. *)
Definition download_blob (b : BlobClient) : M string := λ st,
  match blobs (world st) !! blob_key b with
  | Some data => (inr data, st)
  | None => (inl ResourceNotFoundError, st)
  end.

(** [blob_client.upload_blob(data, overwrite=True)]. *)
Definition upload_blob (b : BlobClient) (data : string) : M unit :=
  modify_world (λ w, mkWorld (files w) (<[blob_key b := data]> (blobs w)) (stdout w)).

(** [l[i]] and [l[i] = x] on a Python list: a negative index counts from
    the end, an index out of range raises. *)
Definition py_index (n : nat) (i : Z) : option nat :=
  if bool_decide (0 ≤ i < Z.of_nat n) then Some (Z.to_nat i)
  else if bool_decide (- Z.of_nat n ≤ i < 0) then Some (Z.to_nat (Z.of_nat n + i))
  else None.

Definition getitem {A : Type} (l : list A) (i : Z) : exn + A :=
  match py_index (length l) i ≫= (l !!.) with
  | Some a => inr a
  | None => inl IndexError
  end.

Definition setitem {A : Type} (l : list A) (i : Z) (x : A) : exn + list A :=
  match py_index (length l) i with
  | Some k => inr (<[k := x]> l)
  | None => inl IndexError
  end.

(** ** Validation and the methods *)

(** The library behaviour the program relies on and the source does not
    fix.  pydantic validates in its lax mode, where an [int] field also
    accepts some values that are not integers (a boolean, a string that
    spells an integer): [lax_int] is that conversion.  [json_dump] and
    [json_load] are the text layer of the [json] module: the text of a
    value, and the value of a text ([None] when the text is not a JSON
    document). *)
Class PyLib : Type := mkPyLib {
  lax_int : pyval → option Z;
  json_dump : pyval → string;
  json_load : string → option pyval
}.

Section Methods.

Context `{PyLib}.

(** Validators of the annotations [str], [int], [dict] and [Optional[...]]. *)
Definition validate_str (v : pyval) : option pyval :=
  match v with VStr s => Some (VStr s) | _ => None end.

Definition validate_int (v : pyval) : option pyval :=
  match v with VInt z => Some (VInt z) | _ => VInt <$> lax_int v end.

Definition validate_dict (v : pyval) : option pyval :=
  match v with VDict d => Some (VDict d) | _ => None end.

Definition validate_optional (validate : pyval → option pyval) (v : pyval)
  : option pyval :=
  match v with VNone => Some VNone | _ => validate v end.

(** A field without default must be present; a field with a default takes
    it, unvalidated, when the key is missing. *)
Definition required (validate : pyval → option pyval) (key : string)
    (data : gmap string pyval) : option pyval :=
  data !! key ≫= validate.

Definition defaulted (validate : pyval → option pyval) (key : string)
    (dflt : pyval) (data : gmap string pyval) : option pyval :=
  match data !! key with
  | Some v => validate v
  | None => Some dflt
  end.

Definition Prompt_validate (data : gmap string pyval) : option Prompt.t :=
  id ← defaulted (validate_optional validate_str) "id" VNone data;
  datapoint ← required validate_str "datapoint" data;
  clause ← required validate_str "clause" data;
  created_by ← required validate_str "created_by" data;
  query_prompt ← required validate_str "query_prompt" data;
  version ← defaulted (validate_optional validate_int) "version" (VInt 1) data;
  evaluated ← defaulted (validate_optional validate_int) "evaluated" (VInt 0) data;
  status ← defaulted (validate_optional validate_str) "status" (VStr "latest") data;
  score ← defaulted (validate_optional validate_dict) "score" VNone data;
  notes ← defaulted (validate_optional validate_str) "notes" VNone data;
  Some (Prompt.mk id datapoint clause created_by query_prompt version
          evaluated status score notes ∅).

(** The constructor [Prompt] on the keyword arguments unpacked from a
    dictionary: keys that name no field are ignored. *)
Definition Prompt_new (data : gmap string pyval) : exn + Prompt.t :=
  match Prompt_validate data with
  | Some p => inr p
  | None => inl ValidationError
  end.

(** The constructor on the unpacking of any value: unpacking keyword
    arguments needs a mapping. *)
Definition Prompt_of (prompt_data : pyval) : exn + Prompt.t :=
  match prompt_data with
  | VDict d => Prompt_new d
  | _ => inl TypeError
  end.

(** The two halves of the snapshot: the value handed to [json.dump] in
    [_save_prompts] and the comprehension [_load_prompts] runs over what
    [json.load] returned. *)
Definition snapshot_data (ps : list Prompt.t) : pyval :=
  VList ((λ prompt, VDict (Prompt.model_dump prompt)) <$> ps).

Fixpoint Prompts_of_items (items : list pyval) : exn + list Prompt.t :=
  match items with
  | [] => inr []
  | prompt_data :: rest =>
      match Prompt_of prompt_data with
      | inl e => inl e
      | inr p =>
          match Prompts_of_items rest with
          | inl e => inl e
          | inr ps => inr (p :: ps)
          end
      end
  end.

Definition Prompts_of_data (data : pyval) : exn + list Prompt.t :=
  match py_iter data with
  | inl e => inl e
  | inr items => Prompts_of_items items
  end.

Definition _load_prompts : M (list Prompt.t) :=
  try_except
    (container_client ← getattr container_client "container_client";
     local_file_path ← get_local_file_path;
     let blob_client := get_blob_client container_client local_file_path in
     present ← blob_exists blob_client;
     if present : bool then
       local_file_path ← get_local_file_path;
       open_truncate local_file_path;;
       downloaded ← download_blob blob_client;
       write_file local_file_path downloaded;;
       local_file_path ← get_local_file_path;
       text ← read_file local_file_path;
       data ← lift (from_option inr (inl JSONDecodeError) (json_load text));
       lift (Prompts_of_data data)
     else
       print BlobNotFound;;
       mret [])
    is_Exception
    (λ e, print (ErrorLoading e);; mret []).

Definition _save_prompts : M unit :=
  try_except
    (local_file_path ← get_local_file_path;
     open_truncate local_file_path;;
     self_prompts ← getattr prompts "prompts";
     write_file local_file_path (json_dump (snapshot_data self_prompts));;
     container_client ← getattr container_client "container_client";
     local_file_path ← get_local_file_path;
     let blob_client := get_blob_client container_client local_file_path in
     local_file_path ← get_local_file_path;
     data ← read_file local_file_path;
     upload_blob blob_client data)
    is_Exception
    (λ e, print (ErrorSaving e)).

(** The scan of [_find_prompt_index] over [enumerate(self.prompts)],
    from index [i] on. *)
Fixpoint find_prompt_index_from (i : Z) (ps : list Prompt.t)
    (datapoint clause : string) (status : option string) : Z :=
  match ps with
  | [] => -1
  | prompt :: rest =>
      if py_eq_str (Prompt.datapoint prompt) datapoint
         && py_eq_str (Prompt.clause prompt) clause
         && match status with
            | None => true
            | Some status => py_eq_str (Prompt.status prompt) status
            end
      then i
      else find_prompt_index_from (i + 1) rest datapoint clause status
  end.

Definition _find_prompt_index (datapoint clause : string)
    (status : option string) : M Z :=
  self_prompts ← getattr prompts "prompts";
  mret (find_prompt_index_from 0 self_prompts datapoint clause status).

Fixpoint find_prompt_index_by_id_from (i : Z) (ps : list Prompt.t)
    (id : string) : Z :=
  match ps with
  | [] => -1
  | prompt :: rest =>
      if py_eq_str (Prompt.id prompt) id then i
      else find_prompt_index_by_id_from (i + 1) rest id
  end.

Definition _find_prompt_index_by_id (id : string) : M Z :=
  self_prompts ← getattr prompts "prompts";
  mret (find_prompt_index_by_id_from 0 self_prompts id).

(** [create_prompt]: [new_id] is the string [str(uuid.uuid4())] draws.
    The key of the new prompt is read back from the validated record, whose
    [datapoint] and [clause] are strings.  The field map is passed by
    value: the assignment of the identifier into the caller's dictionary is
    visible here only to the constructor. *)
Definition create_prompt (new_id : string) (prompt_data : gmap string pyval)
  : M (option Prompt.t) :=
  try_except
    (let prompt_data := <["id" := VStr new_id]> prompt_data in
     new_prompt ← lift (Prompt_new prompt_data);
     match Prompt.datapoint new_prompt, Prompt.clause new_prompt with
     | VStr datapoint, VStr clause =>
         existing_prompt_index ← _find_prompt_index datapoint clause None;
         new_prompt ←
           (if bool_decide (existing_prompt_index ≠ -1) then
              self_prompts ← getattr prompts "prompts";
              existing_prompt ← lift (getitem self_prompts existing_prompt_index);
              version ← lift (py_add1 (Prompt.version existing_prompt));
              let new_prompt := Prompt.set_version version new_prompt in
              let new_prompt := Prompt.set_evaluated (VInt 0) new_prompt in
              self_prompts ← getattr prompts "prompts";
              existing_prompt ← lift (getitem self_prompts existing_prompt_index);
              self_prompts ← lift (setitem self_prompts existing_prompt_index
                         (Prompt.set_status (VStr "superseded") existing_prompt));
              setattr (with_prompts self_prompts);;
              self_prompts ← getattr prompts "prompts";
              setattr (with_prompts (self_prompts ++ [new_prompt]));;
              mret new_prompt
            else
              self_prompts ← getattr prompts "prompts";
              setattr (with_prompts (self_prompts ++ [new_prompt]));;
              mret new_prompt);
         _save_prompts;;
         mret (Some new_prompt)
     | _, _ => raise TypeError
     end)
    is_ValidationError
    (λ e, print (ValidationErrorCreating e);; mret None).

(** One step of [get_prompts]: [if f: filtered = [p for p in filtered if
    p.<field> == f]].  [None] and the empty string are falsy. *)
Definition filter_by (f : option string) (field : Prompt.t → pyval)
    (filtered_prompts : list Prompt.t) : list Prompt.t :=
  match f with
  | Some s =>
      if bool_decide (s ≠ EmptyString)
      then filter (λ p, py_eq_str (field p) s) filtered_prompts
      else filtered_prompts
  | None => filtered_prompts
  end.

Definition get_prompts (id datapoint clause status : option string)
  : M (list Prompt.t) :=
  filtered_prompts ← getattr prompts "prompts";
  let filtered_prompts := filter_by id Prompt.id filtered_prompts in
  let filtered_prompts := filter_by datapoint Prompt.datapoint filtered_prompts in
  let filtered_prompts := filter_by clause Prompt.clause filtered_prompts in
  let filtered_prompts := filter_by status Prompt.status filtered_prompts in
  mret filtered_prompts.

Definition update_prompt (id : string) (updated_data : gmap string pyval)
  : M (option Prompt.t) :=
  index ← _find_prompt_index_by_id id;
  if bool_decide (index ≠ -1) then
    try_except
      (self_prompts ← getattr prompts "prompts";
       stored ← lift (getitem self_prompts index);
       let updated_prompt := Prompt.model_copy stored updated_data in
       self_prompts ← getattr prompts "prompts";
       self_prompts ← lift (setitem self_prompts index updated_prompt);
       setattr (with_prompts self_prompts);;
       _save_prompts;;
       mret (Some updated_prompt))
      is_ValidationError
      (λ e, print (ValidationErrorUpdating e);; mret None)
  else
    print (NoPromptFound id);;
    mret None.

(** [self.connection_url] and [self.container_name], read back in
    [__init__] after their assignment. *)
Definition self_connection_url : M string :=
  getattr connection_url "connection_url".

Definition self_container_name : M string :=
  getattr container_name "container_name".

Definition __init__ (connection_url container_name file_path : string)
  : M unit :=
  setattr (with_file_path file_path);;
  loaded ← _load_prompts;
  setattr (with_prompts loaded);;
  setattr (with_connection_url connection_url);;
  setattr (with_container_name container_name);;
  setattr (with_credential DefaultAzureCredential);;
  url ← self_connection_url;
  cred ← getattr credential "credential";
  setattr (with_blob_service_client (mkBlobServiceClient url cred));;
  service ← getattr blob_service_client "blob_service_client";
  name ← self_container_name;
  setattr (with_container_client (get_container_client service name)).

(** [PromptManager(connection_url, container_name, file_path)] in a world. *)
Definition construct (connection_url container_name file_path : string)
    (w : World) : (exn + unit) * State :=
  __init__ connection_url container_name file_path (mkState new_object w).

Definition default_file_path : string := "prompts.json".

End Methods.

(** ** The reporting methods *)

(** Truth value of a Python value, as [or] and [if] test it. *)
Definition py_truthy (v : pyval) : bool :=
  match v with
  | VNone => false
  | VBool b => b
  | VInt z => bool_decide (z ≠ 0)
  | VStr s => bool_decide (s ≠ EmptyString)
  | VList l | VTuple l => match l with [] => false | _ => true end
  | VDict d => negb (bool_decide (dom d = ∅))
  end.

(** [a or b]. *)
Definition py_or (a b : pyval) : pyval := if py_truthy a then a else b.

(** The dictionary [get_query_prompts_and_notes] appends for a prompt. *)
Definition query_prompt_and_notes (prompt : Prompt.t) : gmap string pyval :=
  {[ "query_prompt" := Prompt.query_prompt prompt;
     "notes" := py_or (Prompt.notes prompt) (VStr EmptyString) ]}.

Definition get_query_prompts_and_notes (datapoint : string)
  : M (list (gmap string pyval)) :=
  self_prompts ← getattr prompts "prompts";
  let matching_prompts :=
    filter (λ p, py_eq_str (Prompt.datapoint p) datapoint) self_prompts in
  mret (query_prompt_and_notes <$> matching_prompts).

(** The dictionary [get_prompts_info] appends for a prompt. *)
Definition prompt_info (prompt : Prompt.t) : gmap string pyval :=
  {[ "id" := Prompt.id prompt; "query_prompt" := Prompt.query_prompt prompt;
     "notes" := Prompt.notes prompt; "version" := Prompt.version prompt ]}.

Definition get_prompts_info (search_term search_field : string)
  : M (list (gmap string pyval)) :=
  if bool_decide (search_field ∉ ["id"; "datapoint"; "clause"]) then
    print InvalidSearchField;;
    mret []
  else
    matching_prompts ←
      (if bool_decide (search_field = "id") then
         get_prompts (Some search_term) None None None
       else if bool_decide (search_field = "datapoint") then
         get_prompts None (Some search_term) None None
       else if bool_decide (search_field = "clause") then
         get_prompts None None (Some search_term) None
       else mret []);
    mret (prompt_info <$> matching_prompts).

(** ** Reference behaviour of a query, and concrete inputs *)

(** A filter that was supplied holds of a field when the field equals it. *)
Definition satisfies (f : option string) (v : pyval) : bool :=
  match f with
  | Some s => py_eq_str v s
  | None => true
  end.

(** The records of [ps], in order, that satisfy all supplied filters. *)
Definition query_spec (id datapoint clause status : option string)
    (ps : list Prompt.t) : list Prompt.t :=
  filter (λ p, satisfies id (Prompt.id p) ∧ satisfies datapoint (Prompt.datapoint p)
               ∧ satisfies clause (Prompt.clause p)
               ∧ satisfies status (Prompt.status p)) ps.

(** The record carries the versioning key [(datapoint, clause)]. *)
Definition has_key (datapoint clause : string) (p : Prompt.t) : bool :=
  py_eq_str (Prompt.datapoint p) datapoint && py_eq_str (Prompt.clause p) clause.

(** The state after [print m]. *)
Definition say (m : msg) (st : State) : State :=
  mkState (self st)
    (mkWorld (files (world st)) (blobs (world st)) (stdout (world st) ++ [m])).

(** A computation that leaves the files and the blobs as they are. *)
Definition keeps_storage {A : Type} (m : M A) : Prop :=
  ∀ st, files (world (m st).2) = files (world st)
        ∧ blobs (world (m st).2) = blobs (world st).

(** A library for concrete runs: booleans are the only lax integers, and the
    text layer writes the empty text and reads nothing. *)
Definition sample_lib : PyLib :=
  mkPyLib (λ v, match v with VBool b => Some (Z.b2z b) | _ => None end)
          (λ _, EmptyString) (λ _, None).

(** The field map of a create call that gives the four required fields. *)
Definition prompt_input (datapoint clause created_by query_prompt : string)
  : gmap string pyval :=
  {[ "datapoint" := VStr datapoint; "clause" := VStr clause;
     "created_by" := VStr created_by; "query_prompt" := VStr query_prompt ]}.

(** The record the constructor builds from it under identifier [id], with
    the given version and status. *)
Definition prompt_record (id datapoint clause created_by query_prompt : string)
    (version : Z) (status : string) : Prompt.t :=
  Prompt.mk (VStr id) (VStr datapoint) (VStr clause) (VStr created_by)
    (VStr query_prompt) (VInt version) (VInt 0) (VStr status) VNone VNone ∅.

Definition rent_data : gmap string pyval :=
  prompt_input "What is the Rent?" "Rent" "A" "Q1".

Definition rent_data_v2 : gmap string pyval :=
  <["query_prompt" := VStr "Q2"]> rent_data.

(** A record of the lineage of [rent_data]. *)
Definition rent_prompt (id : string) (version : Z) (status query_prompt : string)
  : Prompt.t :=
  prompt_record id "What is the Rent?" "Rent" "A" query_prompt version status.

(** The same key with a status supplied by the caller. *)
Definition rent_data_superseded : gmap string pyval :=
  <["status" := VStr "superseded"]> rent_data_v2.

(** The collections after one and after two creates with that key. *)
Definition one_record : list Prompt.t := [rent_prompt "id-1" 1 "latest" "Q1"].

Definition two_records : list Prompt.t :=
  [rent_prompt "id-1" 1 "superseded" "Q1"; rent_prompt "id-2" 2 "latest" "Q2"].

(** A world whose container already holds a snapshot blob. *)
Definition remote_world : World :=
  mkWorld ∅ {[ ("https://account", "prompt-container", "prompts.json") := "[]" ]} [].

Definition fresh_manager : State :=
  (construct (H := sample_lib) "https://account" "prompt-container"
     default_file_path remote_world).2.

Definition one_prompt : State :=
  (create_prompt (H := sample_lib) "id-1" rent_data fresh_manager).2.

Definition two_prompts : State :=
  (create_prompt (H := sample_lib) "id-2" rent_data_v2 one_prompt).2.

(** What the scan of [_find_prompt_index] tests on a record. *)
Definition scan_match (datapoint clause : string) (status : option string)
    (p : Prompt.t) : bool :=
  has_key datapoint clause p && satisfies status (Prompt.status p).

(** The notes of a record as text: the empty text when there are none. *)
Definition notes_text (p : Prompt.t) : string :=
  match Prompt.notes p with VStr s => s | _ => EmptyString end.

(** A first create that gives no version, and one that gives its own
    version and evaluation flag. *)
Definition rent_data_unversioned : gmap string pyval :=
  <["version" := VNone]> rent_data.

Definition rent_data_rated : gmap string pyval :=
  <["version" := VInt 5]> (<["evaluated" := VInt 1]> rent_data).

Definition unversioned_record : Prompt.t :=
  Prompt.mk (VStr "id-1") (VStr "What is the Rent?") (VStr "Rent") (VStr "A")
    (VStr "Q1") VNone (VInt 0) (VStr "latest") VNone VNone ∅.

Definition rated_record : Prompt.t :=
  Prompt.mk (VStr "id-1") (VStr "What is the Rent?") (VStr "Rent") (VStr "A")
    (VStr "Q1") (VInt 5) (VInt 1) (VStr "latest") VNone VNone ∅.

(** An input whose clause is a number. *)
Definition rent_data_bad_clause : gmap string pyval :=
  <["clause" := VInt 3]> rent_data.

Definition unversioned_prompt : State :=
  (create_prompt (H := sample_lib) "id-1" rent_data_unversioned fresh_manager).2.

(** The manager after an update that gives the second record the
    identifier of the first, and the record the next update returns. *)
Definition duplicate_ids : State :=
  (update_prompt (H := sample_lib) "id-2" {[ "id" := VStr "id-1" ]} two_prompts).2.

Definition first_with_notes : Prompt.t :=
  Prompt.mk (VStr "id-1") (VStr "What is the Rent?") (VStr "Rent") (VStr "A")
    (VStr "Q1") (VInt 1) (VInt 0) (VStr "superseded") VNone (VStr "x") ∅.

(** ** The snapshot as text *)

(** The value [json.load] gives back for the text [json.dump] wrote for
    [v]: JSON has arrays only, so a tuple comes back as a list. *)
Fixpoint json_value (v : pyval) : pyval :=
  match v with
  | VList l | VTuple l => VList (json_value <$> l)
  | VDict d => VDict (json_value <$> d)
  | _ => v
  end.

(** Values built from [None], booleans, integers, strings, lists and
    dictionaries: the ones JSON keeps as they are. *)
Inductive json_plain : pyval → Prop :=
| plain_none : json_plain VNone
| plain_bool b : json_plain (VBool b)
| plain_int z : json_plain (VInt z)
| plain_str s : json_plain (VStr s)
| plain_list l : (∀ v, v ∈ l → json_plain v) → json_plain (VList l)
| plain_dict d : (∀ k v, d !! k = Some v → json_plain v) → json_plain (VDict d).

(** The text [_save_prompts] hands to the staging file, [json.dump] of the
    list of field dumps, and what [_load_prompts] makes of a text:
    [json.load], then the constructor on every element. *)
Definition snapshot_text `{PyLib} (ps : list Prompt.t) : string :=
  json_dump (snapshot_data ps).

Definition Prompts_of_text `{PyLib} (text : string) : exn + list Prompt.t :=
  match json_load text with
  | Some data => Prompts_of_data data
  | None => inl JSONDecodeError
  end.

(** A JSON text layer for concrete runs: a printer without indentation
    and a parser for what it prints. *)
Definition quote_char : Ascii.ascii := Ascii.ascii_of_nat 34.
Definition backslash_char : Ascii.ascii := Ascii.ascii_of_nat 92.

Fixpoint json_escape (s : string) : string :=
  match s with
  | EmptyString => EmptyString
  | String c rest =>
      if bool_decide (c = quote_char ∨ c = backslash_char)
      then String backslash_char (String c (json_escape rest))
      else String c (json_escape rest)
  end.

Definition json_quote (s : string) : string :=
  String quote_char (json_escape s +:+ String quote_char EmptyString).

Fixpoint json_print (v : pyval) : string :=
  match v with
  | VNone => "null"
  | VBool b => if b then "true" else "false"
  | VInt z => pretty z
  | VStr s => json_quote s
  | VList l | VTuple l => "[" +:+ String.concat ", " (json_print <$> l) +:+ "]"
  | VDict d =>
      "{" +:+ String.concat ", "
                ((λ kv, json_quote kv.1 +:+ ": " +:+ kv.2)
                   <$> map_to_list (json_print <$> d)) +:+ "}"
  end.

Definition is_space (c : Ascii.ascii) : bool :=
  bool_decide (Ascii.nat_of_ascii c ∈ [32; 10; 9; 13]%nat).

Fixpoint skip_spaces (s : string) : string :=
  match s with
  | String c rest => if is_space c then skip_spaces rest else s
  | EmptyString => s
  end.

Definition digit (c : Ascii.ascii) : option Z :=
  let n := Z.of_nat (Ascii.nat_of_ascii c) in
  if bool_decide (48 ≤ n ≤ 57) then Some (n - 48) else None.

Fixpoint parse_digits (acc : Z) (s : string) : Z * string :=
  match s with
  | String c rest =>
      match digit c with
      | Some d => parse_digits (10 * acc + d) rest
      | None => (acc, s)
      end
  | EmptyString => (acc, s)
  end.

Fixpoint parse_chars (s : string) : option (string * string) :=
  match s with
  | EmptyString => None
  | String c rest =>
      if bool_decide (c = quote_char) then Some (EmptyString, rest)
      else if bool_decide (c = backslash_char) then
        match rest with
        | String c' rest' =>
            '(t, rest'') ← parse_chars rest'; Some (String c' t, rest'')
        | EmptyString => None
        end
      else '(t, rest') ← parse_chars rest; Some (String c t, rest')
  end.

Definition expect (word : string) (s : string) (v : pyval)
  : option (pyval * string) :=
  if String.prefix word s
  then Some (v, String.substring (String.length word) (String.length s - String.length word) s)
  else None.

Fixpoint parse_value (fuel : nat) (s : string) : option (pyval * string) :=
  match fuel with
  | O => None
  | S fuel =>
      match skip_spaces s with
      | EmptyString => None
      | String c rest =>
          if bool_decide (c = "n"%char) then expect "ull" rest VNone
          else if bool_decide (c = "t"%char) then expect "rue" rest (VBool true)
          else if bool_decide (c = "f"%char) then expect "alse" rest (VBool false)
          else if bool_decide (c = quote_char) then
            '(t, rest') ← parse_chars rest; Some (VStr t, rest')
          else if bool_decide (c = "-"%char) then
            let '(z, rest') := parse_digits 0 rest in Some (VInt (- z), rest')
          else if bool_decide (is_Some (digit c)) then
            let '(z, rest') := parse_digits 0 (String c rest) in Some (VInt z, rest')
          else if bool_decide (c = "["%char) then parse_elements fuel [] rest
          else if bool_decide (c = "{"%char) then parse_members fuel ∅ rest
          else None
      end
  end
with parse_elements (fuel : nat) (acc : list pyval) (s : string)
  : option (pyval * string) :=
  match fuel with
  | O => None
  | S fuel =>
      match skip_spaces s with
      | String c rest =>
          if bool_decide (c = "]"%char) then Some (VList (reverse acc), rest)
          else if bool_decide (c = ","%char) then parse_elements fuel acc rest
          else '(v, rest') ← parse_value fuel (String c rest);
               parse_elements fuel (v :: acc) rest'
      | EmptyString => None
      end
  end
with parse_members (fuel : nat) (acc : gmap string pyval) (s : string)
  : option (pyval * string) :=
  match fuel with
  | O => None
  | S fuel =>
      match skip_spaces s with
      | String c rest =>
          if bool_decide (c = "}"%char) then Some (VDict acc, rest)
          else if bool_decide (c = ","%char) then parse_members fuel acc rest
          else if bool_decide (c = quote_char) then
            '(k, rest') ← parse_chars rest;
            match skip_spaces rest' with
            | String c' rest'' =>
                if bool_decide (c' = ":"%char) then
                  '(v, rest''') ← parse_value fuel rest'';
                  parse_members fuel (<[k := v]> acc) rest'''
                else None
            | EmptyString => None
            end
          else None
      | EmptyString => None
      end
  end.

Definition json_parse (s : string) : option pyval :=
  '(v, rest) ← parse_value (2 * String.length s + 2) s;
  match skip_spaces rest with EmptyString => Some v | _ => None end.

Definition json_lib : PyLib :=
  mkPyLib (λ v, match v with VBool b => Some (Z.b2z b) | _ => None end)
          json_print json_parse.

(** A valid record whose score holds a tuple, and the same record with a
    list in its place. *)
Definition tuple_record : Prompt.t :=
  Prompt.mk (VStr "id-1") (VStr "What is the Rent?") (VStr "Rent") (VStr "A")
    (VStr "Q1") (VInt 1) (VInt 0) (VStr "latest")
    (VDict {[ "range" := VTuple [VInt 1; VInt 2] ]}) VNone ∅.

Definition list_record : Prompt.t :=
  Prompt.mk (VStr "id-1") (VStr "What is the Rent?") (VStr "Rent") (VStr "A")
    (VStr "Q1") (VInt 1) (VInt 0) (VStr "latest")
    (VDict {[ "range" := VList [VInt 1; VInt 2] ]}) VNone ∅.

(** A record with notes and a score of plain values. *)
Definition scored_record : Prompt.t :=
  Prompt.mk (VStr "id-2") (VStr "What is the Rent?") (VStr "Rent") (VStr "A")
    (VStr "Q2") (VInt 2) (VInt 1) (VStr "latest")
    (VDict {[ "accuracy" := VInt 9; "tags" := VList [VStr "a"; VBool true; VNone] ]})
    (VStr "final") ∅.

(** ** Properties *)

Section Properties.

Context `{PyLib}.

(** *** Persistence *)

Lemma save_prompts_run (st : State) :
  _save_prompts st = (inr (), say (ErrorSaving (AttributeError "local_file_path")) st).
Proof. reflexivity. Qed.

Lemma load_prompts_run (st : State) :
  _load_prompts st =
    (inr [], say (ErrorLoading
                (AttributeError (match container_client (self st) with
                                 | Some _ => "local_file_path"
                                 | None => "container_client"
                                 end))) st).
Proof.
  unfold _load_prompts, try_except, getattr, mbind, M_bind.
  by destruct (container_client (self st)).
Qed.

Lemma keeps_ret {A : Type} (a : A) : keeps_storage (mret a).
Proof. by intros st. Qed.

Lemma keeps_raise {A : Type} (e : exn) : keeps_storage (@raise A e).
Proof. by intros st. Qed.

Lemma keeps_lift {A : Type} (r : exn + A) : keeps_storage (lift r).
Proof. by intros st. Qed.

Lemma keeps_getattr {A : Type} (field : PromptManager → option A) name :
  keeps_storage (getattr field name).
Proof. intros st. unfold getattr. by destruct (field (self st)). Qed.

Lemma keeps_setattr f : keeps_storage (setattr f).
Proof. by intros st. Qed.

Lemma keeps_print m : keeps_storage (print m).
Proof. by intros st. Qed.

Lemma keeps_bind {A B : Type} (m : M A) (f : A → M B) :
  keeps_storage m → (∀ a, keeps_storage (f a)) → keeps_storage (m ≫= f).
Proof.
  intros Hm Hf st. unfold mbind, M_bind.
  destruct (Hm st) as [Hfiles Hblobs].
  destruct (m st) as [[e|a] st']; simpl in *; [done|].
  destruct (Hf a st') as [Hfiles' Hblobs']. split; congruence.
Qed.

Lemma keeps_try_except {A : Type} (body : M A) catches handler :
  keeps_storage body → (∀ e, keeps_storage (handler e)) →
  keeps_storage (try_except body catches handler).
Proof.
  intros Hbody Hhandler st. unfold try_except.
  destruct (Hbody st) as [Hfiles Hblobs].
  destruct (body st) as [[e|a] st']; simpl in *; [|done].
  destruct (catches e); [|done].
  destruct (Hhandler e st') as [Hfiles' Hblobs']. split; congruence.
Qed.

Lemma keeps_save_prompts : keeps_storage _save_prompts.
Proof. intros st. by rewrite save_prompts_run. Qed.

Ltac keeps_step :=
  first
    [ apply keeps_ret | apply keeps_raise | apply keeps_lift
    | apply keeps_getattr | apply keeps_setattr | apply keeps_print
    | apply keeps_save_prompts
    | apply keeps_bind; [|intros ?]
    | apply keeps_try_except; [|intros ?]
    | match goal with
      | |- keeps_storage (match ?x with _ => _ end) => destruct x
      end ].

Lemma keeps_create_prompt new_id prompt_data :
  keeps_storage (create_prompt new_id prompt_data).
Proof. unfold create_prompt, _find_prompt_index. repeat keeps_step. Qed.

Lemma keeps_update_prompt id updated_data :
  keeps_storage (update_prompt id updated_data).
Proof. unfold update_prompt, _find_prompt_index_by_id. repeat keeps_step. Qed.

(** C2.  Constructing a manager never reads the container: [_load_prompts]
    runs before [container_client] is assigned, the attribute error is
    caught, and the collection starts empty whatever the remote blob holds;
    the staging file is not written. *)
Theorem construct_ignores_remote_blob (connection_url container_name file_path : string)
    (w : World) :
  construct connection_url container_name file_path w =
    (inr (),
     mkState
       (mkPromptManager (Some file_path) (Some []) (Some connection_url)
          (Some container_name) (Some DefaultAzureCredential)
          (Some (mkBlobServiceClient connection_url DefaultAzureCredential))
          (Some (mkContainerClient connection_url container_name)))
       (mkWorld (files w) (blobs w)
          (stdout w ++ [ErrorLoading (AttributeError "container_client")]))).
Proof.
  unfold construct, __init__, mbind, M_bind.
  cbn [setattr]. rewrite load_prompts_run. reflexivity.
Qed.

(** C3.  [_save_prompts] stops at [self.local_file_path], an attribute the
    object never has: the error is caught and printed, nothing is written
    to the staging file and nothing is uploaded.  So no call of
    [create_prompt] or [update_prompt] changes a file or a blob. *)
Theorem mutations_leave_storage_untouched :
  (∀ st, _save_prompts st =
           (inr (), say (ErrorSaving (AttributeError "local_file_path")) st))
  ∧ (∀ new_id prompt_data st,
        let st' := (create_prompt new_id prompt_data st).2 in
        files (world st') = files (world st) ∧ blobs (world st') = blobs (world st))
  ∧ (∀ id updated_data st,
        let st' := (update_prompt id updated_data st).2 in
        files (world st') = files (world st) ∧ blobs (world st') = blobs (world st)).
Proof.
  split; [apply save_prompts_run|]. split.
  - intros new_id prompt_data st. apply keeps_create_prompt.
  - intros id updated_data st. apply keeps_update_prompt.
Qed.

(** *** Indexing and the two scans *)

Lemma getitem_lookup {A : Type} (l : list A) (i : nat) (x : A) :
  l !! i = Some x → getitem l (Z.of_nat i) = inr x.
Proof.
  intros Hi. pose proof (lookup_lt_Some _ _ _ Hi) as Hlt.
  unfold getitem, py_index. rewrite bool_decide_eq_true_2 by lia.
  simpl. by rewrite Nat2Z.id, Hi.
Qed.

Lemma setitem_lookup {A : Type} (l : list A) (i : nat) (x y : A) :
  l !! i = Some x → setitem l (Z.of_nat i) y = inr (<[i := y]> l).
Proof.
  intros Hi. pose proof (lookup_lt_Some _ _ _ Hi) as Hlt.
  unfold setitem, py_index. rewrite bool_decide_eq_true_2 by lia.
  by rewrite Nat2Z.id.
Qed.

Lemma find_prompt_index_from_first (k : Z) (ps : list Prompt.t) D C (i : nat) r :
  ps !! i = Some r →
  has_key D C r = true →
  (∀ j q, (j < i)%nat → ps !! j = Some q → has_key D C q = false) →
  find_prompt_index_from k ps D C None = k + Z.of_nat i.
Proof.
  revert k i. induction ps as [|p ps IH]; intros k i Hi Hr Hfirst; [done|].
  destruct i as [|i]; simpl in *.
  - injection Hi as ->. unfold has_key in Hr. rewrite andb_true_r, Hr. lia.
  - pose proof (Hfirst 0%nat p ltac:(lia) eq_refl) as Hp.
    unfold has_key in Hp. rewrite andb_true_r, Hp.
    rewrite (IH (k + 1) i Hi Hr); [lia|].
    intros j q Hj Hq. apply (Hfirst (S j) q); [lia|done].
Qed.

Lemma find_prompt_index_from_none (k : Z) (ps : list Prompt.t) D C :
  (∀ q, q ∈ ps → has_key D C q = false) →
  find_prompt_index_from k ps D C None = -1.
Proof.
  revert k. induction ps as [|p ps IH]; intros k Hnone; [done|]. simpl.
  pose proof (Hnone p ltac:(left)) as Hp.
  unfold has_key in Hp. rewrite andb_true_r, Hp.
  apply IH. intros q Hq. apply Hnone. by right.
Qed.

Lemma find_prompt_index_by_id_from_first (k : Z) (ps : list Prompt.t) id
    (i : nat) r :
  ps !! i = Some r →
  py_eq_str (Prompt.id r) id = true →
  (∀ j q, (j < i)%nat → ps !! j = Some q → py_eq_str (Prompt.id q) id = false) →
  find_prompt_index_by_id_from k ps id = k + Z.of_nat i.
Proof.
  revert k i. induction ps as [|p ps IH]; intros k i Hi Hr Hfirst; [done|].
  destruct i as [|i]; simpl in *.
  - injection Hi as ->. rewrite Hr. lia.
  - rewrite (Hfirst 0%nat p ltac:(lia) eq_refl).
    rewrite (IH (k + 1) i Hi Hr); [lia|].
    intros j q Hj Hq. apply (Hfirst (S j) q); [lia|done].
Qed.

Lemma find_prompt_index_by_id_from_none (k : Z) (ps : list Prompt.t) id :
  (∀ q, q ∈ ps → py_eq_str (Prompt.id q) id = false) →
  find_prompt_index_by_id_from k ps id = -1.
Proof.
  revert k. induction ps as [|p ps IH]; intros k Hnone; [done|]. simpl.
  rewrite (Hnone p ltac:(left)).
  apply IH. intros q Hq. apply Hnone. by right.
Qed.

(** Either scan answers [-1] or a position of the list. *)
Lemma find_prompt_index_from_range (k : Z) ps D C status :
  let r := find_prompt_index_from k ps D C status in
  r = -1 ∨ ∃ i : nat, r = k + Z.of_nat i ∧ is_Some (ps !! i).
Proof.
  revert k. induction ps as [|p ps IH]; intros k; simpl; [by left|].
  destruct (_ && _).
  - right. exists 0%nat. split; [lia|by eexists].
  - destruct (IH (k + 1)) as [->|(i & -> & Hi)]; [by left|].
    right. exists (S i). split; [lia|done].
Qed.

Lemma find_prompt_index_by_id_from_range (k : Z) ps id :
  let r := find_prompt_index_by_id_from k ps id in
  r = -1 ∨ ∃ i : nat, r = k + Z.of_nat i ∧ is_Some (ps !! i).
Proof.
  revert k. induction ps as [|p ps IH]; intros k; simpl; [by left|].
  destruct (py_eq_str _ _).
  - right. exists 0%nat. split; [lia|by eexists].
  - destruct (IH (k + 1)) as [->|(i & -> & Hi)]; [by left|].
    right. exists (S i). split; [lia|done].
Qed.

(** *** Runs of [create_prompt] and [update_prompt] *)

Ltac run_method :=
  unfold try_except, mbind, M_bind, mret, M_ret, lift, raise, getattr,
    setattr, print, say; simpl.

(** Validation fails: the error is caught, nothing changes but the output. *)
Lemma create_prompt_invalid st new_id prompt_data :
  Prompt_new (<["id" := VStr new_id]> prompt_data) = inl ValidationError →
  create_prompt new_id prompt_data st =
    (inr None, say (ValidationErrorCreating ValidationError) st).
Proof. intros Hnew. unfold create_prompt. run_method. by rewrite Hnew. Qed.

(** No stored record has the key: the validated record is appended. *)
Lemma create_prompt_fresh st ps new_id prompt_data p0 D C :
  prompts (self st) = Some ps →
  Prompt_new (<["id" := VStr new_id]> prompt_data) = inr p0 →
  Prompt.datapoint p0 = VStr D → Prompt.clause p0 = VStr C →
  find_prompt_index_from 0 ps D C None = -1 →
  create_prompt new_id prompt_data st =
    (inr (Some p0),
     say (ErrorSaving (AttributeError "local_file_path"))
       (mkState (with_prompts (ps ++ [p0]) (self st)) (world st))).
Proof.
  intros Hps Hnew HD HC Hfind.
  unfold create_prompt, _find_prompt_index. run_method.
  rewrite Hnew, HD, HC, Hps, Hfind. simpl. by rewrite Hps.
Qed.

(** The scan stops at position [i]: the new record takes the version of
    the record found there plus one, that record is marked superseded. *)
Lemma create_prompt_existing st ps new_id prompt_data p0 D C (i : nat) r v :
  prompts (self st) = Some ps →
  Prompt_new (<["id" := VStr new_id]> prompt_data) = inr p0 →
  Prompt.datapoint p0 = VStr D → Prompt.clause p0 = VStr C →
  find_prompt_index_from 0 ps D C None = Z.of_nat i →
  ps !! i = Some r →
  py_add1 (Prompt.version r) = inr v →
  create_prompt new_id prompt_data st =
    (inr (Some (Prompt.set_evaluated (VInt 0) (Prompt.set_version v p0))),
     say (ErrorSaving (AttributeError "local_file_path"))
       (mkState
          (with_prompts
             (<[i := Prompt.set_status (VStr "superseded") r]> ps
              ++ [Prompt.set_evaluated (VInt 0) (Prompt.set_version v p0)])
             (self st))
          (world st))).
Proof.
  intros Hps Hnew HD HC Hfind Hi Hv.
  unfold create_prompt, _find_prompt_index. run_method.
  rewrite Hnew, HD, HC, Hps, Hfind.
  rewrite bool_decide_eq_true_2 by lia.
  rewrite Hps, (getitem_lookup _ _ _ Hi), Hv, Hps, (getitem_lookup _ _ _ Hi).
  by rewrite (setitem_lookup _ _ _ _ Hi).
Qed.

Lemma update_prompt_found st ps id updated_data (i : nat) r :
  prompts (self st) = Some ps →
  find_prompt_index_by_id_from 0 ps id = Z.of_nat i →
  ps !! i = Some r →
  update_prompt id updated_data st =
    (inr (Some (Prompt.model_copy r updated_data)),
     say (ErrorSaving (AttributeError "local_file_path"))
       (mkState (with_prompts (<[i := Prompt.model_copy r updated_data]> ps) (self st))
          (world st))).
Proof.
  intros Hps Hfind Hi.
  unfold update_prompt, _find_prompt_index_by_id. run_method.
  rewrite Hps, Hfind. rewrite bool_decide_eq_true_2 by lia.
  rewrite Hps, (getitem_lookup _ _ _ Hi), Hps.
  by rewrite (setitem_lookup _ _ _ _ Hi).
Qed.

Lemma update_prompt_not_found st ps id updated_data :
  prompts (self st) = Some ps →
  find_prompt_index_by_id_from 0 ps id = -1 →
  update_prompt id updated_data st = (inr None, say (NoPromptFound id) st).
Proof.
  intros Hps Hfind.
  unfold update_prompt, _find_prompt_index_by_id. run_method.
  by rewrite Hps, Hfind.
Qed.

(** *** Validation *)

Lemma required_str_Some key data v :
  required validate_str key data = Some v →
  data !! key = Some v ∧ Prompt.is_str v = true.
Proof.
  unfold required. destruct (data !! key) as [[]|]; simpl; try done.
  by intros [= <-].
Qed.

Lemma defaulted_opt_str_Some key dflt data v :
  defaulted (validate_optional validate_str) key dflt data = Some v →
  v = default dflt (data !! key)
  ∧ (Prompt.is_opt_str dflt = true → Prompt.is_opt_str v = true).
Proof.
  unfold defaulted. destruct (data !! key) as [[]|]; simpl; try done;
    by intros [= <-].
Qed.

Lemma defaulted_opt_int_Some key dflt data v :
  defaulted (validate_optional validate_int) key dflt data = Some v →
  Prompt.is_opt_int dflt = true → Prompt.is_opt_int v = true.
Proof.
  unfold defaulted, validate_optional, validate_int.
  destruct (data !! key) as [[]|]; simpl;
    try destruct (lax_int _); simpl; try done; by intros [= <-].
Qed.

Lemma defaulted_opt_dict_Some key dflt data v :
  defaulted (validate_optional validate_dict) key dflt data = Some v →
  Prompt.is_opt_dict dflt = true → Prompt.is_opt_dict v = true.
Proof.
  unfold defaulted. destruct (data !! key) as [[]|]; simpl; try done;
    by intros [= <-].
Qed.

(** What a successful construction returns. *)
Lemma Prompt_new_inr data p :
  Prompt_new data = inr p →
  Prompt.valid p = true
  ∧ Prompt.id p = default VNone (data !! "id")
  ∧ data !! "datapoint" = Some (Prompt.datapoint p)
  ∧ data !! "clause" = Some (Prompt.clause p)
  ∧ Prompt.status p = default (VStr "latest") (data !! "status").
Proof.
  unfold Prompt_new. destruct (Prompt_validate data) as [p'|] eqn:Hv; [|done].
  intros [= ->]. unfold Prompt_validate in Hv.
  apply bind_Some in Hv as (id & Hid & Hv).
  apply bind_Some in Hv as (datapoint & Hdatapoint & Hv).
  apply bind_Some in Hv as (clause & Hclause & Hv).
  apply bind_Some in Hv as (created_by & Hcreated_by & Hv).
  apply bind_Some in Hv as (query_prompt & Hquery_prompt & Hv).
  apply bind_Some in Hv as (version & Hversion & Hv).
  apply bind_Some in Hv as (evaluated & Hevaluated & Hv).
  apply bind_Some in Hv as (status & Hstatus & Hv).
  apply bind_Some in Hv as (score & Hscore & Hv).
  apply bind_Some in Hv as (notes & Hnotes & Hv).
  injection Hv as <-.
  apply defaulted_opt_str_Some in Hid as [Hid Hid'].
  apply required_str_Some in Hdatapoint as [Hdatapoint Hdatapoint'].
  apply required_str_Some in Hclause as [Hclause Hclause'].
  apply required_str_Some in Hcreated_by as [_ Hcreated_by].
  apply required_str_Some in Hquery_prompt as [_ Hquery_prompt].
  apply defaulted_opt_int_Some in Hversion; [|done].
  apply defaulted_opt_int_Some in Hevaluated; [|done].
  apply defaulted_opt_str_Some in Hstatus as [Hstatus Hstatus'].
  apply defaulted_opt_dict_Some in Hscore; [|done].
  apply defaulted_opt_str_Some in Hnotes as [_ Hnotes].
  unfold Prompt.valid; simpl.
  rewrite Hid', Hdatapoint', Hclause', Hcreated_by, Hquery_prompt, Hversion,
    Hevaluated, Hstatus', Hscore, Hnotes by done.
  by rewrite dom_empty_L, bool_decide_eq_true_2.
Qed.

(** In [create_prompt] the identifier of the caller is overwritten. *)
Lemma Prompt_new_create new_id prompt_data p D C :
  Prompt_new (<["id" := VStr new_id]> prompt_data) = inr p →
  prompt_data !! "datapoint" = Some (VStr D) →
  prompt_data !! "clause" = Some (VStr C) →
  Prompt.id p = VStr new_id ∧ Prompt.datapoint p = VStr D
  ∧ Prompt.clause p = VStr C
  ∧ Prompt.status p = default (VStr "latest") (prompt_data !! "status").
Proof.
  intros Hnew HD HC.
  apply Prompt_new_inr in Hnew as (_ & Hid & Hdatapoint & Hclause & Hstatus).
  rewrite lookup_insert_eq in Hid.
  rewrite lookup_insert_ne in Hdatapoint, Hclause, Hstatus by done.
  rewrite HD in Hdatapoint. rewrite HC in Hclause. naive_solver.
Qed.

(** *** Versioning *)

Lemma Prompt_new_prompt_input id D C A Q :
  Prompt_new (<["id" := VStr id]> (prompt_input D C A Q))
  = inr (prompt_record id D C A Q 1 "latest").
Proof. reflexivity. Qed.

Lemma has_key_prompt_record id D C A Q version status :
  has_key D C (prompt_record id D C A Q version status) = true.
Proof. unfold has_key. simpl. by rewrite !bool_decide_eq_true_2. Qed.

(** C1.  Three creates with the same key on a new manager: the scan of
    [_find_prompt_index] stops at the first record of the lineage, already
    superseded, so the third record repeats version 2 and the second record
    keeps status "latest" next to it. *)
Theorem third_create_repeats_version (w : World)
    (D C A Q1 Q2 Q3 id1 id2 id3 : string) :
  let st0 := (construct "https://account" "prompt-container" default_file_path w).2 in
  let st1 := (create_prompt id1 (prompt_input D C A Q1) st0).2 in
  let st2 := (create_prompt id2 (prompt_input D C A Q2) st1).2 in
  let st3 := (create_prompt id3 (prompt_input D C A Q3) st2).2 in
  prompts (self st3)
  = Some [prompt_record id1 D C A Q1 1 "superseded";
          prompt_record id2 D C A Q2 2 "latest";
          prompt_record id3 D C A Q3 2 "latest"].
Proof.
  intros st0 st1 st2 st3.
  set (r1 := prompt_record id1 D C A Q1 1 "latest").
  set (r1' := prompt_record id1 D C A Q1 1 "superseded").
  set (r2 := prompt_record id2 D C A Q2 2 "latest").
  assert (prompts (self st1) = Some [r1]) as H1.
  { subst st1.
    by rewrite (create_prompt_fresh st0 [] id1 _ _ D C eq_refl
                  (Prompt_new_prompt_input id1 D C A Q1) eq_refl eq_refl eq_refl). }
  assert (find_prompt_index_from 0 [r1] D C None = Z.of_nat 0) as Hfind1.
  { apply (find_prompt_index_from_first 0 [r1] D C 0 r1);
      [done|apply has_key_prompt_record|intros; lia]. }
  assert (prompts (self st2) = Some [r1'; r2]) as H2.
  { subst st2.
    by rewrite (create_prompt_existing st1 [r1] id2 _ _ D C 0 r1 (VInt 2) H1
                  (Prompt_new_prompt_input id2 D C A Q2) eq_refl eq_refl
                  Hfind1 eq_refl eq_refl). }
  assert (find_prompt_index_from 0 [r1'; r2] D C None = Z.of_nat 0) as Hfind2.
  { apply (find_prompt_index_from_first 0 [r1'; r2] D C 0 r1');
      [done|apply has_key_prompt_record|intros; lia]. }
  subst st3.
  by rewrite (create_prompt_existing st2 [r1'; r2] id3 _ _ D C 0 r1' (VInt 2) H2
                (Prompt_new_prompt_input id3 D C A Q3) eq_refl eq_refl
                Hfind2 eq_refl eq_refl).
Qed.

(** C4, as the code has it.  When exactly one stored record carries the key
    [(D, C)], at position [i] with an integer version [V], creating a valid
    record with that key returns the validated record with version [V + 1]
    and evaluated 0; its status is the one the input gives ("latest" when
    the input gives none).  The record at [i] is marked superseded and the
    collection grows by the new record. *)
Theorem create_second_version st ps (i : nat) r D C V new_id prompt_data p0 :
  prompts (self st) = Some ps →
  ps !! i = Some r →
  Prompt.datapoint r = VStr D →
  Prompt.clause r = VStr C →
  Prompt.version r = VInt V →
  (∀ j q, ps !! j = Some q → has_key D C q = true → j = i) →
  prompt_data !! "datapoint" = Some (VStr D) →
  prompt_data !! "clause" = Some (VStr C) →
  Prompt_new (<["id" := VStr new_id]> prompt_data) = inr p0 →
  ∃ new st',
    create_prompt new_id prompt_data st = (inr (Some new), st')
    ∧ new = Prompt.set_evaluated (VInt 0) (Prompt.set_version (VInt (V + 1)) p0)
    ∧ Prompt.version new = VInt (V + 1)
    ∧ Prompt.evaluated new = VInt 0
    ∧ Prompt.status new = default (VStr "latest") (prompt_data !! "status")
    ∧ prompts (self st')
      = Some (<[i := Prompt.set_status (VStr "superseded") r]> ps ++ [new])
    ∧ length (<[i := Prompt.set_status (VStr "superseded") r]> ps ++ [new])
      = S (length ps).
Proof.
  intros Hps Hi HrD HrC HrV Hone HD HC Hnew.
  destruct (Prompt_new_create _ _ _ _ _ Hnew HD HC) as (_ & Hp0D & Hp0C & Hstatus).
  assert (has_key D C r = true) as Hkey.
  { unfold has_key. rewrite HrD, HrC. simpl. by rewrite !bool_decide_eq_true_2. }
  assert (find_prompt_index_from 0 ps D C None = Z.of_nat i) as Hfind.
  { rewrite (find_prompt_index_from_first 0 ps D C i r Hi Hkey); [lia|].
    intros j q Hj Hq. destruct (has_key D C q) eqn:Hq'; [|done].
    specialize (Hone j q Hq Hq'). lia. }
  eexists _, _. split.
  { eapply create_prompt_existing; eauto. by rewrite HrV. }
  repeat split; try done.
  rewrite length_app, length_insert. simpl. lia.
Qed.

(** *** Updates *)

(** C5.  [model_copy(update=...)] does not validate, so [update_prompt]
    never reaches its [except ValidationError] branch: setting the required
    [datapoint] of a stored record to [None] is returned and stored, although
    the resulting record fails the schema. *)
Theorem update_admits_invalid_record (w : World) :
  let st0 := (construct "https://account" "prompt-container" default_file_path w).2 in
  let st1 := (create_prompt "id-1" rent_data st0).2 in
  let run := update_prompt "id-1" {[ "datapoint" := VNone ]} st1 in
  let p := Prompt.mk (VStr "id-1") VNone (VStr "Rent") (VStr "A") (VStr "Q1")
             (VInt 1) (VInt 0) (VStr "latest") VNone VNone ∅ in
  prompts (self st1) = Some [rent_prompt "id-1" 1 "latest" "Q1"]
  ∧ run.1 = inr (Some p)
  ∧ prompts (self run.2) = Some [p]
  ∧ Prompt.valid p = false
  ∧ Prompt_new (Prompt.model_dump p) = inl ValidationError.
Proof. by vm_compute. Qed.

(** The only error of the failing paths of [create_prompt]. *)
Lemma Prompt_new_inl data e : Prompt_new data = inl e → e = ValidationError.
Proof. unfold Prompt_new. destruct (Prompt_validate data); naive_solver. Qed.

Lemma create_prompt_type_error st ps new_id prompt_data p0 D C (i : nat) r e :
  prompts (self st) = Some ps →
  Prompt_new (<["id" := VStr new_id]> prompt_data) = inr p0 →
  Prompt.datapoint p0 = VStr D → Prompt.clause p0 = VStr C →
  find_prompt_index_from 0 ps D C None = Z.of_nat i →
  ps !! i = Some r →
  py_add1 (Prompt.version r) = inl e →
  create_prompt new_id prompt_data st = (inl TypeError, st).
Proof.
  intros Hps Hnew HD HC Hfind Hi Hv.
  assert (e = TypeError) as ->.
  { unfold py_add1 in Hv. destruct (Prompt.version r); naive_solver. }
  unfold create_prompt, _find_prompt_index. run_method.
  rewrite Hnew, HD, HC, Hps, Hfind.
  rewrite bool_decide_eq_true_2 by lia.
  rewrite Hps, (getitem_lookup _ _ _ Hi), Hv. simpl. by destruct st.
Qed.

Lemma model_copy_id r updated_data :
  Prompt.id (Prompt.model_copy r updated_data)
  = default (Prompt.id r) (updated_data !! "id").
Proof. reflexivity. Qed.

(** C6, as the code has it.  [create_prompt] stores the new record under
    the generated identifier, whatever the input carries under "id", and
    changes no stored identifier.  [update_prompt] changes no stored
    identifier when the field map has no "id" key or no record is found;
    with an "id" key and a candidate record that satisfies the schema, the
    identifier of the located record becomes the supplied value and the
    others stay. *)
Theorem stored_ids st ps :
  prompts (self st) = Some ps →
  (∀ new_id prompt_data,
     let run := create_prompt new_id prompt_data st in
     ∃ ps', prompts (self run.2) = Some ps'
       ∧ match run.1 with
         | inr (Some new) =>
             Prompt.id new = VStr new_id
             ∧ Prompt.id <$> ps' = (Prompt.id <$> ps) ++ [VStr new_id]
         | _ => ps' = ps
         end)
  ∧ (∀ id updated_data,
       let run := update_prompt id updated_data st in
       ∃ ps', prompts (self run.2) = Some ps'
         ∧ (updated_data !! "id" = None → Prompt.id <$> ps' = Prompt.id <$> ps)
         ∧ (find_prompt_index_by_id_from 0 ps id = -1 → ps' = ps)
         ∧ (∀ (i : nat) r v,
              updated_data !! "id" = Some v →
              find_prompt_index_by_id_from 0 ps id = Z.of_nat i →
              ps !! i = Some r →
              Prompt.valid (Prompt.model_copy r updated_data) = true →
              Prompt.id <$> ps' = <[i := v]> (Prompt.id <$> ps))).
Proof.
  intros Hps. split.
  - intros new_id prompt_data run. subst run.
    destruct (Prompt_new (<["id" := VStr new_id]> prompt_data)) as [e|p0] eqn:Hnew.
    { pose proof (Prompt_new_inl _ _ Hnew) as ->.
      rewrite (create_prompt_invalid _ _ _ Hnew). by exists ps. }
    pose proof (Prompt_new_inr _ _ Hnew) as (Hvalid & Hid & _).
    rewrite lookup_insert_eq in Hid. simpl in Hid.
    unfold Prompt.valid in Hvalid.
    destruct (Prompt.datapoint p0) as [| | |D| | |] eqn:HD;
      try (by rewrite andb_false_r in Hvalid).
    destruct (Prompt.clause p0) as [| | |C| | |] eqn:HC;
      try (by rewrite !andb_false_r in Hvalid).
    destruct (find_prompt_index_from_range 0 ps D C None) as [Hfind|(i & Hfind & [r Hi])].
    { rewrite (create_prompt_fresh _ _ _ _ _ _ _ Hps Hnew HD HC Hfind). simpl.
      eexists. split; [done|]. split; [done|]. by rewrite fmap_app; simpl; rewrite Hid. }
    rewrite Z.add_0_l in Hfind.
    destruct (py_add1 (Prompt.version r)) as [e|v] eqn:Hv.
    { rewrite (create_prompt_type_error _ _ _ _ _ _ _ _ _ _ Hps Hnew HD HC Hfind Hi Hv).
      by exists ps. }
    rewrite (create_prompt_existing _ _ _ _ _ _ _ _ _ _ Hps Hnew HD HC Hfind Hi Hv).
    simpl. eexists. split; [done|]. split; [done|].
    rewrite fmap_app, list_fmap_insert. simpl. rewrite Hid.
    by rewrite list_insert_id by (by rewrite list_lookup_fmap, Hi).
  - intros id updated_data run. subst run.
    destruct (find_prompt_index_by_id_from_range 0 ps id) as [Hfind|(i & Hfind & [r Hi])].
    { rewrite (update_prompt_not_found _ _ _ _ Hps Hfind). simpl.
      exists ps. rewrite Hfind. repeat split; try done. intros; lia. }
    rewrite Z.add_0_l in Hfind.
    rewrite (update_prompt_found _ _ _ _ _ _ Hps Hfind Hi). simpl.
    eexists. split; [done|]. rewrite Hfind. split; [|split].
    + intros Hnone. rewrite list_fmap_insert, model_copy_id, Hnone. simpl.
      by rewrite list_insert_id by (by rewrite list_lookup_fmap, Hi).
    + lia.
    + intros j r' v Hv Hj _ _. assert (j = i) as -> by lia.
      by rewrite list_fmap_insert, model_copy_id, Hv.
Qed.

Lemma model_copy_notes r (x : pyval) :
  Prompt.model_copy r {[ "notes" := x ]}
  = Prompt.mk (Prompt.id r) (Prompt.datapoint r) (Prompt.clause r)
      (Prompt.created_by r) (Prompt.query_prompt r) (Prompt.version r)
      (Prompt.evaluated r) (Prompt.status r) (Prompt.score r) x (Prompt.extra r).
Proof.
  unfold Prompt.model_copy. rewrite lookup_singleton_eq.
  rewrite !lookup_singleton_ne by done. simpl. f_equal.
  rewrite map_filter_singleton_False.
  - by rewrite (left_id_L ∅ (∪)).
  - simpl. intros Hnot. apply Hnot. unfold Prompt.fields. set_solver.
Qed.


(** *** Queries *)

Lemma filter_always {A : Type} (l : list A) : filter (λ _, Is_true true) l = l.
Proof.
  induction l as [|a l IH]; [done|]. rewrite filter_cons_True by done.
  by rewrite IH.
Qed.

Lemma filter_by_satisfies f (field : Prompt.t → pyval) ps :
  f ≠ Some EmptyString →
  filter_by f field ps = filter (λ p, satisfies f (field p)) ps.
Proof.
  intros Hf. destruct f as [s|]; simpl.
  - rewrite bool_decide_eq_true_2; [done|congruence].
  - by rewrite filter_always.
Qed.

(** C7.  With every supplied filter a non-empty string, [get_prompts]
    returns the records that satisfy all supplied filters, a sublist of the
    collection in its order; with no filter it returns the collection. *)
Theorem get_prompts_query st ps id datapoint clause status :
  prompts (self st) = Some ps →
  id ≠ Some EmptyString → datapoint ≠ Some EmptyString → clause ≠ Some EmptyString → status ≠ Some EmptyString →
  get_prompts id datapoint clause status st
  = (inr (query_spec id datapoint clause status ps), st)
  ∧ query_spec id datapoint clause status ps `sublist_of` ps
  ∧ get_prompts None None None None st = (inr ps, st).
Proof.
  intros Hps Hid Hdatapoint Hclause Hstatus. split; [|split].
  - unfold get_prompts. run_method. rewrite Hps. do 2 f_equal.
    rewrite !filter_by_satisfies by done. unfold query_spec.
    rewrite !list_filter_filter. apply list_filter_iff. tauto.
  - apply sublist_filter.
  - unfold get_prompts. run_method. by rewrite Hps.
Qed.

(** C10.  A filter given as the empty string is not applied: the call
    behaves as the call without that filter, and a query by the empty
    status returns what reading [self.prompts] returns. *)
Theorem empty_filters_are_ignored id datapoint clause status st :
  get_prompts (Some EmptyString) datapoint clause status st
  = get_prompts None datapoint clause status st
  ∧ get_prompts id (Some EmptyString) clause status st
    = get_prompts id None clause status st
  ∧ get_prompts id datapoint (Some EmptyString) status st
    = get_prompts id datapoint None status st
  ∧ get_prompts id datapoint clause (Some EmptyString) st
    = get_prompts id datapoint clause None st
  ∧ get_prompts None None None (Some EmptyString) st = getattr prompts "prompts" st.
Proof.
  repeat split; try reflexivity.
  unfold get_prompts. run_method. by destruct (prompts (self st)).
Qed.

(** *** The snapshot *)

Lemma required_str_valid key data v :
  data !! key = Some v → Prompt.is_str v = true →
  required validate_str key data = Some v.
Proof. unfold required. intros -> Hv. by destruct v. Qed.

Lemma defaulted_opt_str_valid key dflt data v :
  data !! key = Some v → Prompt.is_opt_str v = true →
  defaulted (validate_optional validate_str) key dflt data = Some v.
Proof. unfold defaulted. intros -> Hv. by destruct v. Qed.

Lemma defaulted_opt_int_valid key dflt data v :
  data !! key = Some v → Prompt.is_opt_int v = true →
  defaulted (validate_optional validate_int) key dflt data = Some v.
Proof. unfold defaulted. intros -> Hv. by destruct v. Qed.

Lemma defaulted_opt_dict_valid key dflt data v :
  data !! key = Some v → Prompt.is_opt_dict v = true →
  defaulted (validate_optional validate_dict) key dflt data = Some v.
Proof. unfold defaulted. intros -> Hv. by destruct v. Qed.

(** Validating the dump of a valid record gives the record back. *)
Lemma Prompt_new_model_dump p :
  Prompt.valid p = true → Prompt_new (Prompt.model_dump p) = inr p.
Proof.
  destruct p as [id datapoint clause created_by query_prompt version evaluated
                   status score notes extra].
  unfold Prompt.valid. simpl. intros Hvalid.
  repeat (apply andb_prop in Hvalid as [Hvalid ?]).
  assert (extra = ∅) as ->.
  { apply dom_empty_inv_L. by eapply bool_decide_eq_true_1. }
  unfold Prompt_new, Prompt_validate, Prompt.model_dump. simpl.
  rewrite (defaulted_opt_str_valid "id" _ _ id) by done. simpl.
  rewrite (required_str_valid "datapoint" _ datapoint) by done. simpl.
  rewrite (required_str_valid "clause" _ clause) by done. simpl.
  rewrite (required_str_valid "created_by" _ created_by) by done. simpl.
  rewrite (required_str_valid "query_prompt" _ query_prompt) by done. simpl.
  rewrite (defaulted_opt_int_valid "version" _ _ version) by done. simpl.
  rewrite (defaulted_opt_int_valid "evaluated" _ _ evaluated) by done. simpl.
  rewrite (defaulted_opt_str_valid "status" _ _ status) by done. simpl.
  rewrite (defaulted_opt_dict_valid "score" _ _ score) by done. simpl.
  by rewrite (defaulted_opt_str_valid "notes" _ _ notes) by done.
Qed.

(** On the document itself: the list of field dumps of valid records is
    rebuilt by the constructor into the same records in the same order. *)
Lemma Prompts_of_snapshot_data (ps : list Prompt.t) :
  Forall (λ p, Prompt.valid p = true) ps →
  Prompts_of_data (snapshot_data ps) = inr ps.
Proof.
  unfold Prompts_of_data, snapshot_data. cbn [py_iter].
  induction 1 as [|p ps Hp _ IH]; [done|].
  rewrite fmap_cons. cbn [Prompts_of_items Prompt_of].
  by rewrite (Prompt_new_model_dump p Hp), IH.
Qed.

Lemma json_value_plain v : json_plain v → json_value v = v.
Proof.
  induction 1 as [| | | |l _ IH|d _ IH]; simpl; try done.
  - f_equal. apply list_eq. intros i. rewrite list_lookup_fmap.
    destruct (l !! i) as [v|] eqn:Hv; [|done]. simpl.
    by rewrite (IH v) by (by eapply list_elem_of_lookup_2).
  - f_equal. apply map_eq. intros k. rewrite lookup_fmap.
    destruct (d !! k) as [v|] eqn:Hv; [|done]. simpl.
    by rewrite (IH k v).
Qed.

Lemma json_value_scalar v :
  Prompt.is_opt_str v || Prompt.is_opt_int v = true → json_value v = v.
Proof. by destruct v. Qed.

Lemma json_value_model_dump p :
  Prompt.valid p = true →
  json_plain (Prompt.score p) →
  json_value <$> Prompt.model_dump p = Prompt.model_dump p.
Proof.
  destruct p as [id datapoint clause created_by query_prompt version evaluated
                   status score notes extra].
  unfold Prompt.valid. simpl. intros Hvalid Hscore.
  repeat (apply andb_prop in Hvalid as [Hvalid ?]).
  unfold Prompt.model_dump. simpl. rewrite !fmap_insert, fmap_empty.
  rewrite (json_value_plain score Hscore).
  rewrite (json_value_scalar id) by (by destruct id).
  rewrite (json_value_scalar datapoint) by (by destruct datapoint).
  rewrite (json_value_scalar clause) by (by destruct clause).
  rewrite (json_value_scalar created_by) by (by destruct created_by).
  rewrite (json_value_scalar query_prompt) by (by destruct query_prompt).
  rewrite (json_value_scalar version) by (by destruct version).
  rewrite (json_value_scalar evaluated) by (by destruct evaluated).
  rewrite (json_value_scalar status) by (by destruct status).
  by rewrite (json_value_scalar notes) by (by destruct notes).
Qed.

Lemma json_value_snapshot_data ps :
  Forall (λ p, Prompt.valid p = true) ps →
  Forall (λ p, json_plain (Prompt.score p)) ps →
  json_value (snapshot_data ps) = snapshot_data ps.
Proof.
  intros Hvalid Hplain. unfold snapshot_data. simpl. f_equal.
  rewrite <- list_fmap_compose. apply list_fmap_ext. intros i p Hp. simpl.
  f_equal. apply json_value_model_dump.
  - by eapply (Forall_lookup_1 (λ p, Prompt.valid p = true)).
  - by eapply (Forall_lookup_1 (λ p, json_plain (Prompt.score p))).
Qed.

(** The parsing steps of [_load_prompts] are [Prompts_of_text]. *)
Lemma load_prompts_parse (text : string) (st : State) :
  (data ← lift (from_option inr (inl JSONDecodeError) (json_load text));
   lift (Prompts_of_data data)) st
  = lift (Prompts_of_text text) st.
Proof.
  unfold Prompts_of_text, lift, mbind, M_bind.
  by destruct (json_load text).
Qed.


End Properties.

(** ** Concrete runs *)

Lemma one_prompt_records : prompts (self one_prompt) = Some one_record.
Proof. by vm_compute. Qed.

Lemma two_prompts_records : prompts (self two_prompts) = Some two_records.
Proof. by vm_compute. Qed.

(** The theorem of C4 on the second create of the rent lineage. *)
Lemma create_second_version_witness :
  prompts (self one_prompt) = Some one_record
  ∧ one_record !! 0%nat = Some (rent_prompt "id-1" 1 "latest" "Q1")
  ∧ rent_data_v2 !! "datapoint" = Some (VStr "What is the Rent?")
  ∧ rent_data_v2 !! "clause" = Some (VStr "Rent")
  ∧ Prompt_new (H := sample_lib) (<["id" := VStr "id-2"]> rent_data_v2)
    = inr (rent_prompt "id-2" 1 "latest" "Q2")
  ∧ ∃ new st',
      create_prompt (H := sample_lib) "id-2" rent_data_v2 one_prompt
      = (inr (Some new), st')
      ∧ Prompt.version new = VInt 2
      ∧ Prompt.evaluated new = VInt 0
      ∧ Prompt.status new = VStr "latest"
      ∧ prompts (self st')
        = Some (<[0%nat := Prompt.set_status (VStr "superseded")
                             (rent_prompt "id-1" 1 "latest" "Q1")]> one_record
                ++ [new]).
Proof.
  assert (prompts (self one_prompt) = Some one_record) as Hps
    by (vm_compute; reflexivity).
  assert (rent_data_v2 !! "datapoint" = Some (VStr "What is the Rent?")) as HD
    by (vm_compute; reflexivity).
  assert (rent_data_v2 !! "clause" = Some (VStr "Rent")) as HC
    by (vm_compute; reflexivity).
  assert (Prompt_new (H := sample_lib) (<["id" := VStr "id-2"]> rent_data_v2)
          = inr (rent_prompt "id-2" 1 "latest" "Q2")) as Hnew
    by (vm_compute; reflexivity).
  assert (∀ j q, one_record !! j = Some q →
            has_key "What is the Rent?" "Rent" q = true → j = 0%nat) as Hone.
  { intros [|[|j]] q Hq _; [reflexivity|discriminate Hq|discriminate Hq]. }
  destruct (create_second_version (H := sample_lib) one_prompt one_record 0
              (rent_prompt "id-1" 1 "latest" "Q1") "What is the Rent?" "Rent" 1
              "id-2" rent_data_v2 (rent_prompt "id-2" 1 "latest" "Q2")
              Hps eq_refl eq_refl eq_refl eq_refl Hone HD HC Hnew)
    as (new & st' & Hrun & _ & Hversion & Hevaluated & Hstatus & Hstored & _).
  repeat (split; [assumption || reflexivity|]).
  exists new, st'. repeat (split; [assumption|]). exact Hstored.
Defined.

(** C4 at a concrete input: the collection holds one record of the key,
    with status "latest" and version 1; the second record is created from a
    valid input that gives its own status, and comes back with that
    status. *)
Lemma create_keeps_supplied_status :
  prompts (self one_prompt) = Some [rent_prompt "id-1" 1 "latest" "Q1"]
  ∧ (create_prompt (H := sample_lib) "id-2" rent_data_superseded one_prompt).1
    = inr (Some (rent_prompt "id-2" 2 "superseded" "Q2"))
  ∧ Prompt.status (rent_prompt "id-2" 2 "superseded" "Q2") ≠ VStr "latest".
Proof. split; [|split]; by vm_compute. Qed.

(** C6 at a concrete input: an update whose field map has an "id" key
    replaces the identifier of the stored record. *)
Lemma update_overwrites_id :
  prompts (self one_prompt) = Some [rent_prompt "id-1" 1 "latest" "Q1"]
  ∧ (update_prompt (H := sample_lib) "id-1" {[ "id" := VStr "other" ]} one_prompt).1
    = inr (Some (rent_prompt "other" 1 "latest" "Q1"))
  ∧ prompts (self (update_prompt (H := sample_lib) "id-1"
                     {[ "id" := VStr "other" ]} one_prompt).2)
    = Some [rent_prompt "other" 1 "latest" "Q1"]
  ∧ Prompt.id (rent_prompt "other" 1 "latest" "Q1")
    ≠ Prompt.id (rent_prompt "id-1" 1 "latest" "Q1").
Proof. repeat split; by vm_compute. Qed.

(** The theorem of C6 on the manager holding one record, and on the
    manager holding two for an update that renames the second. *)
Lemma stored_ids_witness :
  prompts (self one_prompt) = Some one_record
  ∧ (∃ ps', prompts (self (create_prompt (H := sample_lib) "id-2"
                             (<["id" := VStr "mine"]> rent_data_v2) one_prompt).2)
            = Some ps'
       ∧ Prompt.id <$> ps' = [VStr "id-1"; VStr "id-2"])
  ∧ (∃ ps', prompts (self (update_prompt (H := sample_lib) "id-1"
                             {[ "notes" := VStr "final" ]} one_prompt).2)
            = Some ps'
       ∧ Prompt.id <$> ps' = [VStr "id-1"])
  ∧ Prompt.valid (Prompt.model_copy (rent_prompt "id-2" 2 "latest" "Q2")
                    {[ "id" := VStr "renamed" ]}) = true
  ∧ (∃ ps', prompts (self (update_prompt (H := sample_lib) "id-2"
                             {[ "id" := VStr "renamed" ]} two_prompts).2)
            = Some ps'
       ∧ Prompt.id <$> ps' = [VStr "id-1"; VStr "renamed"]).
Proof.
  destruct (stored_ids (H := sample_lib) one_prompt one_record one_prompt_records)
    as [Hcreate Hupdate].
  destruct (stored_ids (H := sample_lib) two_prompts two_records two_prompts_records)
    as [_ Hrename].
  assert (Prompt.valid (Prompt.model_copy (rent_prompt "id-2" 2 "latest" "Q2")
                          {[ "id" := VStr "renamed" ]}) = true) as Hvalid
    by (vm_compute; reflexivity).
  split; [exact one_prompt_records|]. split; [|split; [|split; [exact Hvalid|]]].
  - destruct (Hcreate "id-2" (<["id" := VStr "mine"]> rent_data_v2))
      as (ps' & Hps' & Hrun).
    exists ps'. split; [exact Hps'|].
    vm_compute in Hrun. exact (proj2 Hrun).
  - destruct (Hupdate "id-1" {[ "notes" := VStr "final" ]})
      as (ps' & Hps' & Hnone & _).
    exists ps'. split; [exact Hps'|]. apply Hnone. vm_compute. reflexivity.
  - destruct (Hrename "id-2" {[ "id" := VStr "renamed" ]})
      as (ps' & Hps' & _ & _ & Hsome).
    exists ps'. split; [exact Hps'|].
    exact (Hsome 1%nat (rent_prompt "id-2" 2 "latest" "Q2") (VStr "renamed")
             ltac:(vm_compute; reflexivity) ltac:(vm_compute; reflexivity)
             eq_refl Hvalid).
Defined.

(** The theorem of C7 on the manager holding the two records of the rent
    lineage, queried by datapoint and status. *)
Lemma get_prompts_query_witness :
  prompts (self two_prompts) = Some two_records
  ∧ get_prompts None (Some "What is the Rent?") None (Some "latest") two_prompts
    = (inr (query_spec None (Some "What is the Rent?") None (Some "latest")
              two_records), two_prompts)
  ∧ query_spec None (Some "What is the Rent?") None (Some "latest") two_records
    = [rent_prompt "id-2" 2 "latest" "Q2"]
  ∧ get_prompts None None None None two_prompts = (inr two_records, two_prompts).
Proof.
  destruct (get_prompts_query two_prompts two_records
              None (Some "What is the Rent?") None (Some "latest")
              two_prompts_records ltac:(discriminate) ltac:(discriminate)
              ltac:(discriminate) ltac:(discriminate))
    as (Hquery & _ & Hall).
  split; [exact two_prompts_records|]. split; [exact Hquery|].
  split; [vm_compute; reflexivity|exact Hall].
Defined.





(** ** Further properties of the methods *)

Section Further.

Context `{PyLib}.

Ltac run_monad :=
  unfold try_except, mbind, M_bind, mret, M_ret, lift, raise, getattr,
    setattr, print, say; simpl.

(** *** What a create call can do to the collection *)

Lemma py_add1_inr v v' : py_add1 v = inr v' → ∃ z, v' = VInt z.
Proof. destruct v; simpl; intros [= <-]; by eexists. Qed.

(** The four outcomes of [create_prompt] on a manager holding [ps]. *)
Lemma create_prompt_cases st ps new_id prompt_data :
  prompts (self st) = Some ps →
  create_prompt new_id prompt_data st
  = (inr None, say (ValidationErrorCreating ValidationError) st)
  ∨ (∃ p0 (i : nat) r,
       Prompt_new (<["id" := VStr new_id]> prompt_data) = inr p0
       ∧ ps !! i = Some r
       ∧ create_prompt new_id prompt_data st = (inl TypeError, st))
  ∨ (∃ p0,
       Prompt_new (<["id" := VStr new_id]> prompt_data) = inr p0
       ∧ create_prompt new_id prompt_data st
         = (inr (Some p0),
            say (ErrorSaving (AttributeError "local_file_path"))
              (mkState (with_prompts (ps ++ [p0]) (self st)) (world st))))
  ∨ (∃ p0 (i : nat) r z,
       Prompt_new (<["id" := VStr new_id]> prompt_data) = inr p0
       ∧ ps !! i = Some r
       ∧ create_prompt new_id prompt_data st
         = (inr (Some (Prompt.set_evaluated (VInt 0) (Prompt.set_version (VInt z) p0))),
            say (ErrorSaving (AttributeError "local_file_path"))
              (mkState
                 (with_prompts
                    (<[i := Prompt.set_status (VStr "superseded") r]> ps
                     ++ [Prompt.set_evaluated (VInt 0) (Prompt.set_version (VInt z) p0)])
                    (self st))
                 (world st)))).
Proof.
  intros Hps.
  destruct (Prompt_new (<["id" := VStr new_id]> prompt_data)) as [e|p0] eqn:Hnew.
  { left. pose proof (Prompt_new_inl _ _ Hnew) as ->.
    by apply create_prompt_invalid. }
  right.
  pose proof (Prompt_new_inr _ _ Hnew) as (Hvalid & _).
  unfold Prompt.valid in Hvalid.
  destruct (Prompt.datapoint p0) as [| | |D| | |] eqn:HD;
    try (by rewrite andb_false_r in Hvalid).
  destruct (Prompt.clause p0) as [| | |C| | |] eqn:HC;
    try (by rewrite !andb_false_r in Hvalid).
  destruct (find_prompt_index_from_range 0 ps D C None)
    as [Hfind|(i & Hfind & [r Hi])].
  { right. left. exists p0. split; [done|]. by eapply create_prompt_fresh. }
  rewrite Z.add_0_l in Hfind.
  destruct (py_add1 (Prompt.version r)) as [e|v] eqn:Hv.
  { left. exists p0, i, r. repeat split; try done.
    by eapply create_prompt_type_error. }
  right. right. destruct (py_add1_inr _ _ Hv) as [z ->].
  exists p0, i, r, z. repeat split; try done. by eapply create_prompt_existing.
Qed.

(** The two outcomes of [update_prompt] on a manager holding [ps]. *)
Lemma update_prompt_cases st ps id updated_data :
  prompts (self st) = Some ps →
  (find_prompt_index_by_id_from 0 ps id = -1
   ∧ update_prompt id updated_data st = (inr None, say (NoPromptFound id) st))
  ∨ (∃ (i : nat) r,
       find_prompt_index_by_id_from 0 ps id = Z.of_nat i
       ∧ ps !! i = Some r
       ∧ update_prompt id updated_data st
         = (inr (Some (Prompt.model_copy r updated_data)),
            say (ErrorSaving (AttributeError "local_file_path"))
              (mkState
                 (with_prompts (<[i := Prompt.model_copy r updated_data]> ps) (self st))
                 (world st)))).
Proof.
  intros Hps.
  destruct (find_prompt_index_by_id_from_range 0 ps id)
    as [Hfind|(i & Hfind & [r Hi])].
  - left. split; [done|]. by apply (update_prompt_not_found st ps).
  - right. rewrite Z.add_0_l in Hfind. exists i, r. repeat split; try done.
    by apply (update_prompt_found st ps).
Qed.

(** X1.  No call of [create_prompt] or [update_prompt] removes or moves a
    record.  A create leaves the collection as it is, or appends one
    record, or appends one record and marks one stored record superseded;
    an update leaves it as it is or replaces one record in place. *)
Theorem collection_never_shrinks st ps :
  prompts (self st) = Some ps →
  (∀ new_id prompt_data, ∃ ps',
     prompts (self (create_prompt new_id prompt_data st).2) = Some ps'
     ∧ (ps' = ps
        ∨ (∃ p, ps' = ps ++ [p])
        ∨ (∃ (i : nat) r p,
             ps !! i = Some r
             ∧ ps' = <[i := Prompt.set_status (VStr "superseded") r]> ps ++ [p]))
     ∧ (length ps ≤ length ps')%nat)
  ∧ (∀ id updated_data, ∃ ps',
       prompts (self (update_prompt id updated_data st).2) = Some ps'
       ∧ (ps' = ps
          ∨ ∃ (i : nat) r,
              ps !! i = Some r ∧ ps' = <[i := Prompt.model_copy r updated_data]> ps)
       ∧ length ps' = length ps).
Proof.
  intros Hps. split.
  - intros new_id prompt_data.
    destruct (create_prompt_cases st ps new_id prompt_data Hps)
      as [->|[(p0 & i & r & _ & _ & ->)|[(p0 & _ & ->)|(p0 & i & r & z & _ & Hi & ->)]]];
      simpl.
    + exists ps. split; [done|]. split; [by left|lia].
    + exists ps. split; [done|]. split; [by left|lia].
    + eexists. split; [done|]. split; [right; left; by eexists|].
      rewrite length_app. simpl. lia.
    + eexists. split; [done|]. split; [right; right; by eexists i, r, _|].
      rewrite length_app, length_insert. simpl. lia.
  - intros id updated_data.
    destruct (update_prompt_cases st ps id updated_data Hps)
      as [[_ ->]|(i & r & _ & Hi & ->)]; simpl.
    + exists ps. split; [done|]. split; [by left|done].
    + eexists. split; [done|]. split; [right; by exists i, r|].
      apply length_insert.
Qed.

(** *** Validity and identifiers under create *)

Lemma valid_set_status q s :
  Prompt.valid q = true → Prompt.valid (Prompt.set_status (VStr s) q) = true.
Proof.
  destruct q. unfold Prompt.valid. simpl. intros Hq.
  repeat (apply andb_prop in Hq as [Hq ?]).
  repeat (apply andb_true_intro; split); done.
Qed.

Lemma valid_new_version p z :
  Prompt.valid p = true →
  Prompt.valid (Prompt.set_evaluated (VInt 0) (Prompt.set_version (VInt z) p)) = true.
Proof.
  destruct p. unfold Prompt.valid. simpl. intros Hp.
  repeat (apply andb_prop in Hp as [Hp ?]).
  repeat (apply andb_true_intro; split); done.
Qed.

(** X2.  [create_prompt] keeps the collection schema-valid: when every
    stored record is valid, so is every record stored after the call,
    whatever the input and the outcome. *)
Theorem create_keeps_records_valid st ps new_id prompt_data :
  prompts (self st) = Some ps →
  Forall (λ p, Prompt.valid p = true) ps →
  ∃ ps', prompts (self (create_prompt new_id prompt_data st).2) = Some ps'
         ∧ Forall (λ p, Prompt.valid p = true) ps'.
Proof.
  intros Hps Hvalid.
  destruct (create_prompt_cases st ps new_id prompt_data Hps)
    as [->|[(p0 & i & r & _ & _ & ->)|[(p0 & Hnew & ->)|(p0 & i & r & z & Hnew & Hi & ->)]]];
    simpl; try by exists ps.
  - eexists. split; [done|]. apply Forall_app. split; [done|].
    apply Forall_singleton. by apply Prompt_new_inr in Hnew as [? _].
  - eexists. split; [done|]. apply Forall_app. split.
    + apply Forall_insert; [done|]. apply valid_set_status.
      exact (Forall_lookup_1 (λ p, Prompt.valid p = true) ps i r Hvalid Hi).
    + apply Forall_singleton. apply valid_new_version.
      by apply Prompt_new_inr in Hnew as [? _].
Qed.

(** X3.  [create_prompt] keeps identifiers unique: when the stored
    identifiers are pairwise distinct and the generated identifier is not
    among them, the identifiers stored after the call are pairwise
    distinct. *)
Theorem create_keeps_ids_unique st ps new_id prompt_data :
  prompts (self st) = Some ps →
  NoDup (Prompt.id <$> ps) →
  VStr new_id ∉ Prompt.id <$> ps →
  ∃ ps', prompts (self (create_prompt new_id prompt_data st).2) = Some ps'
         ∧ NoDup (Prompt.id <$> ps').
Proof.
  intros Hps Hnodup Hfresh.
  assert (NoDup ((Prompt.id <$> ps) ++ [VStr new_id])) as Hnodup'.
  { apply NoDup_app. split; [done|]. split; [|apply NoDup_singleton].
    intros x Hx ->%list_elem_of_singleton. done. }
  destruct (create_prompt_cases st ps new_id prompt_data Hps)
    as [->|[(p0 & i & r & _ & _ & ->)|[(p0 & Hnew & ->)|(p0 & i & r & z & Hnew & Hi & ->)]]];
    simpl; try by exists ps.
  - eexists. split; [done|].
    apply Prompt_new_inr in Hnew as (_ & Hid & _).
    rewrite lookup_insert_eq in Hid. simpl in Hid.
    rewrite fmap_app. simpl. by rewrite Hid.
  - eexists. split; [done|].
    apply Prompt_new_inr in Hnew as (_ & Hid & _).
    rewrite lookup_insert_eq in Hid. simpl in Hid.
    rewrite fmap_app, list_fmap_insert. simpl. rewrite Hid.
    by rewrite list_insert_id by (by rewrite list_lookup_fmap, Hi).
Qed.

(** *** Create followed by a query *)

Lemma filter_no_match {A : Type} (P : A → Prop) `{!∀ x, Decision (P x)}
    (l : list A) :
  (∀ x, x ∈ l → ¬ P x) → filter P l = [].
Proof.
  induction l as [|a l IH]; intros Hnone; [done|].
  rewrite filter_cons_False by (apply Hnone; left).
  apply IH. intros x Hx. apply Hnone. by right.
Qed.

Lemma py_eq_str_refl s : py_eq_str (VStr s) s = true.
Proof. simpl. by apply bool_decide_eq_true_2. Qed.

(** X4.  Create, then fetch by identifier: when the generated identifier is
    not empty and no stored record carries it, a query by the identifier of
    the record a successful create returned gives exactly that record. *)
Theorem create_then_fetch st ps new_id prompt_data p st' :
  prompts (self st) = Some ps →
  new_id ≠ EmptyString →
  (∀ q, q ∈ ps → py_eq_str (Prompt.id q) new_id = false) →
  create_prompt new_id prompt_data st = (inr (Some p), st') →
  Prompt.id p = VStr new_id
  ∧ get_prompts (Some new_id) None None None st' = (inr [p], st').
Proof.
  intros Hps Hnew_id Hfresh Hrun.
  assert (filter (λ q, py_eq_str (Prompt.id q) new_id) ps = []) as Hold.
  { apply filter_no_match. intros q Hq. rewrite (Hfresh q Hq). by intros []. }
  assert (∀ ps0 p0,
            Prompt.id p0 = VStr new_id →
            Prompt.id <$> ps0 = Prompt.id <$> ps →
            filter (λ q, py_eq_str (Prompt.id q) new_id) (ps0 ++ [p0]) = [p0])
    as Hfetch.
  { intros ps0 p0 Hid Hids. rewrite filter_app.
    rewrite (filter_no_match _ ps0).
    - rewrite filter_cons_True; [done|]. rewrite Hid, py_eq_str_refl. done.
    - intros q Hq Hmatch.
      assert (Prompt.id q ∈ Prompt.id <$> ps) as Hin.
      { rewrite <- Hids. by apply list_elem_of_fmap_2. }
      apply list_elem_of_fmap in Hin as (q' & Hq' & Hin).
      specialize (Hfresh q' Hin). rewrite <- Hq' in Hfresh.
      by rewrite Hfresh in Hmatch. }
  destruct (create_prompt_cases st ps new_id prompt_data Hps)
    as [Hcase|[(p0 & i & r & _ & _ & Hcase)|[(p0 & Hnew & Hcase)|(p0 & i & r & z & Hnew & Hi & Hcase)]]];
    rewrite Hcase in Hrun; try discriminate Hrun.
  - injection Hrun as <- <-.
    apply Prompt_new_inr in Hnew as (_ & Hid & _).
    rewrite lookup_insert_eq in Hid. simpl in Hid. split; [done|].
    unfold get_prompts. run_monad. do 2 f_equal.
    rewrite bool_decide_eq_true_2 by done. by apply Hfetch.
  - injection Hrun as <- <-.
    apply Prompt_new_inr in Hnew as (_ & Hid & _).
    rewrite lookup_insert_eq in Hid. simpl in Hid. split; [done|].
    unfold get_prompts. run_monad. do 2 f_equal.
    rewrite bool_decide_eq_true_2 by done. apply Hfetch; [done|].
    rewrite list_fmap_insert. simpl.
    by rewrite list_insert_id by (by rewrite list_lookup_fmap, Hi).
Qed.

(** *** Failing and first creates *)

Lemma required_str_None key data :
  Prompt.is_str (default VNone (data !! key)) = false →
  required validate_str key data = None.
Proof. unfold required. by destruct (data !! key) as [[]|]. Qed.

Ltac fail_binds :=
  repeat match goal with
         | |- context [mbind _ ?x] =>
             lazymatch x with
             | None => fail
             | _ => destruct x; simpl; try done
             end
         end.

(** X5.  A create whose input lacks a required field, or gives it [None],
    a boolean, an integer, a list, a tuple or a dictionary, returns no
    record, leaves the manager, the files and the blobs as they were and
    prints the validation error. *)
Theorem create_rejects_bad_required_field st new_id prompt_data key :
  key ∈ ["datapoint"; "clause"; "created_by"; "query_prompt"] →
  Prompt.is_str (default VNone (prompt_data !! key)) = false →
  create_prompt new_id prompt_data st
  = (inr None, say (ValidationErrorCreating ValidationError) st).
Proof.
  intros Hkey Hbad. apply create_prompt_invalid.
  unfold Prompt_new.
  assert (Prompt_validate (<["id" := VStr new_id]> prompt_data) = None) as ->; [|done].
  unfold Prompt_validate.
  rewrite !elem_of_cons in Hkey.
  destruct Hkey as [->|[->|[->|[->|Hkey]]]]; [..|by apply not_elem_of_nil in Hkey];
    match type of Hbad with
    | context [prompt_data !! ?k] =>
        rewrite (required_str_None k (<["id" := VStr new_id]> prompt_data))
          by (by rewrite lookup_insert_ne)
    end;
    fail_binds.
Qed.

Lemma Prompt_new_ints data p :
  Prompt_new data = inr p →
  defaulted (validate_optional validate_int) "version" (VInt 1) data
  = Some (Prompt.version p)
  ∧ defaulted (validate_optional validate_int) "evaluated" (VInt 0) data
    = Some (Prompt.evaluated p).
Proof.
  unfold Prompt_new. destruct (Prompt_validate data) as [p'|] eqn:Hv; [|done].
  intros [= ->]. unfold Prompt_validate in Hv.
  repeat (apply bind_Some in Hv as (? & ? & Hv)).
  by injection Hv as <-.
Qed.

(** X6.  A first create keeps what the caller supplies: when no stored
    record has the key of the input, the validated record is appended as it
    is, with the version and the evaluation flag of the input (they are
    reset only when the key already exists). *)
Theorem create_first_keeps_supplied_fields st ps D C new_id prompt_data p0 n e :
  prompts (self st) = Some ps →
  (∀ q, q ∈ ps → has_key D C q = false) →
  prompt_data !! "datapoint" = Some (VStr D) →
  prompt_data !! "clause" = Some (VStr C) →
  prompt_data !! "version" = Some (VInt n) →
  prompt_data !! "evaluated" = Some (VInt e) →
  Prompt_new (<["id" := VStr new_id]> prompt_data) = inr p0 →
  create_prompt new_id prompt_data st
  = (inr (Some p0),
     say (ErrorSaving (AttributeError "local_file_path"))
       (mkState (with_prompts (ps ++ [p0]) (self st)) (world st)))
  ∧ Prompt.id p0 = VStr new_id
  ∧ Prompt.version p0 = VInt n
  ∧ Prompt.evaluated p0 = VInt e.
Proof.
  intros Hps Hnone HD HC Hversion Hevaluated Hnew.
  destruct (Prompt_new_create _ _ _ _ _ Hnew HD HC) as (Hid & Hp0D & Hp0C & _).
  destruct (Prompt_new_ints _ _ Hnew) as [Hv He].
  unfold defaulted in Hv, He.
  rewrite lookup_insert_ne in Hv, He by done.
  rewrite Hversion in Hv. rewrite Hevaluated in He. simpl in Hv, He.
  injection Hv as <-. injection He as <-.
  split; [|done].
  eapply create_prompt_fresh; eauto.
  by apply find_prompt_index_from_none.
Qed.

(** X7.  When the first stored record with the key of the input has no
    version ([None], which the schema allows), [create_prompt] raises
    [TypeError] to its caller: the error is not a validation error, so it
    is not caught, and the manager and the world are left as they were. *)
Theorem create_raises_on_unversioned_record st ps (i : nat) r D C new_id
    prompt_data p0 :
  prompts (self st) = Some ps →
  ps !! i = Some r →
  has_key D C r = true →
  (∀ j q, (j < i)%nat → ps !! j = Some q → has_key D C q = false) →
  Prompt.version r = VNone →
  prompt_data !! "datapoint" = Some (VStr D) →
  prompt_data !! "clause" = Some (VStr C) →
  Prompt_new (<["id" := VStr new_id]> prompt_data) = inr p0 →
  create_prompt new_id prompt_data st = (inl TypeError, st).
Proof.
  intros Hps Hi Hkey Hfirst Hversion HD HC Hnew.
  destruct (Prompt_new_create _ _ _ _ _ Hnew HD HC) as (_ & Hp0D & Hp0C & _).
  eapply (create_prompt_type_error st ps new_id prompt_data p0 D C i r TypeError);
    eauto.
  - rewrite (find_prompt_index_from_first 0 ps D C i r Hi Hkey Hfirst). lia.
  - by rewrite Hversion.
Qed.

(** *** Updates *)

(** X8.  An update of an identifier that no stored record carries returns
    no record and changes nothing but the output. *)
Theorem update_unknown_id st ps id updated_data :
  prompts (self st) = Some ps →
  (∀ q, q ∈ ps → py_eq_str (Prompt.id q) id = false) →
  update_prompt id updated_data st = (inr None, say (NoPromptFound id) st).
Proof.
  intros Hps Hnone. apply (update_prompt_not_found st ps); [done|].
  by apply find_prompt_index_by_id_from_none.
Qed.

Lemma model_copy_empty r : Prompt.model_copy r ∅ = r.
Proof.
  destruct r. unfold Prompt.model_copy. simpl.
  rewrite !lookup_empty. simpl. f_equal.
  by rewrite map_filter_empty, (left_id_L ∅ (∪)).
Qed.

Lemma model_copy_twice r updated_data :
  Prompt.model_copy (Prompt.model_copy r updated_data) updated_data
  = Prompt.model_copy r updated_data.
Proof.
  unfold Prompt.model_copy. simpl.
  f_equal; try by destruct (updated_data !! _).
  by rewrite (assoc_L (∪)), (idemp_L (∪)).
Qed.

Lemma find_prompt_index_by_id_from_insert (k : Z) ps id (i : nat) r r' :
  ps !! i = Some r →
  Prompt.id r' = Prompt.id r →
  find_prompt_index_by_id_from k (<[i := r']> ps) id
  = find_prompt_index_by_id_from k ps id.
Proof.
  revert k i. induction ps as [|p ps IH]; intros k i Hi Hid; [done|].
  destruct i as [|i]; simpl in *.
  - injection Hi as ->. by rewrite Hid.
  - by rewrite (IH (k + 1) i Hi Hid).
Qed.

Lemma first_with_id ps id (i : nat) r :
  ps !! i = Some r →
  Prompt.id r = VStr id →
  (∀ j q, ps !! j = Some q → Prompt.id q = VStr id → (i ≤ j)%nat) →
  find_prompt_index_by_id_from 0 ps id = Z.of_nat i.
Proof.
  intros Hi Hid Hfirst.
  rewrite (find_prompt_index_by_id_from_first 0 ps id i r Hi); [lia| |].
  - by rewrite Hid, py_eq_str_refl.
  - intros j q Hj Hq. destruct (Prompt.id q) as [| | |s| | |] eqn:Hq'; try done.
    simpl. apply bool_decide_eq_false_2. intros ->.
    specialize (Hfirst j q Hq Hq'). lia.
Qed.



(** *** The two scans *)

Lemma find_prompt_index_from_scan (k : Z) ps D C status :
  (find_prompt_index_from k ps D C status = -1
   ∧ ∀ q, q ∈ ps → scan_match D C status q = false)
  ∨ (∃ (i : nat) p,
       find_prompt_index_from k ps D C status = k + Z.of_nat i
       ∧ ps !! i = Some p
       ∧ scan_match D C status p = true
       ∧ ∀ j q, (j < i)%nat → ps !! j = Some q → scan_match D C status q = false).
Proof.
  revert k. induction ps as [|p ps IH]; intros k.
  { left. split; [done|]. intros q Hq. by apply not_elem_of_nil in Hq. }
  simpl. fold (has_key D C p). fold (satisfies status (Prompt.status p)).
  fold (scan_match D C status p).
  destruct (scan_match D C status p) eqn:Hp.
  - right. exists 0%nat, p. split; [lia|]. repeat split; try done. intros; lia.
  - destruct (IH (k + 1)) as [[-> Hnone]|(i & q & -> & Hi & Hq & Hfirst)].
    + left. split; [done|]. intros q [->|Hq]%elem_of_cons; [done|by apply Hnone].
    + right. exists (S i), q. split; [lia|]. repeat split; try done.
      intros [|j] q' Hj Hq'; simpl in Hq'; [by injection Hq' as <-|].
      apply (Hfirst j); [lia|done].
Qed.

(** X11.  [_find_prompt_index] answers [-1] exactly when no stored record
    has the datapoint and the clause (and the status, when one is given);
    otherwise it answers the position of the first such record. *)
Theorem find_prompt_index_first_match st ps D C status :
  prompts (self st) = Some ps →
  ∃ answer,
    _find_prompt_index D C status st = (inr answer, st)
    ∧ ((answer = -1 ∧ ∀ q, q ∈ ps → scan_match D C status q = false)
       ∨ (∃ (i : nat) p,
            answer = Z.of_nat i
            ∧ ps !! i = Some p
            ∧ scan_match D C status p = true
            ∧ ∀ j q, (j < i)%nat → ps !! j = Some q →
                     scan_match D C status q = false)).
Proof.
  intros Hps. eexists. split.
  { unfold _find_prompt_index. run_monad. by rewrite Hps. }
  destruct (find_prompt_index_from_scan 0 ps D C status)
    as [[Hfind Hnone]|(i & p & Hfind & Hrest)].
  - by left.
  - right. exists i, p. by rewrite Hfind, Z.add_0_l.
Qed.

Lemma find_prompt_index_by_id_from_scan (k : Z) ps id :
  (find_prompt_index_by_id_from k ps id = -1
   ∧ ∀ q, q ∈ ps → py_eq_str (Prompt.id q) id = false)
  ∨ (∃ (i : nat) p,
       find_prompt_index_by_id_from k ps id = k + Z.of_nat i
       ∧ ps !! i = Some p
       ∧ Prompt.id p = VStr id
       ∧ ∀ j q, (j < i)%nat → ps !! j = Some q → Prompt.id q ≠ VStr id).
Proof.
  revert k. induction ps as [|p ps IH]; intros k.
  { left. split; [done|]. intros q Hq. by apply not_elem_of_nil in Hq. }
  simpl. destruct (py_eq_str (Prompt.id p) id) eqn:Hp.
  - right. exists 0%nat, p. split; [lia|]. repeat split; try done; [|intros; lia].
    destruct (Prompt.id p); try done. simpl in Hp.
    by apply bool_decide_eq_true_1 in Hp as ->.
  - destruct (IH (k + 1)) as [[-> Hnone]|(i & q & -> & Hi & Hq & Hfirst)].
    + left. split; [done|]. intros q [->|Hq]%elem_of_cons; [done|by apply Hnone].
    + right. exists (S i), q. split; [lia|]. repeat split; try done.
      intros [|j] q' Hj Hq'; simpl in Hq'.
      * injection Hq' as <-. intros Hid. by rewrite Hid, py_eq_str_refl in Hp.
      * apply (Hfirst j); [lia|done].
Qed.

(** X12.  [_find_prompt_index_by_id] answers [-1] exactly when no stored
    record carries the identifier; otherwise it answers the position of
    the first record that carries it. *)
Theorem find_prompt_index_by_id_first_match st ps id :
  prompts (self st) = Some ps →
  ∃ answer,
    _find_prompt_index_by_id id st = (inr answer, st)
    ∧ ((answer = -1 ∧ ∀ q, q ∈ ps → py_eq_str (Prompt.id q) id = false)
       ∨ (∃ (i : nat) p,
            answer = Z.of_nat i
            ∧ ps !! i = Some p
            ∧ Prompt.id p = VStr id
            ∧ ∀ j q, (j < i)%nat → ps !! j = Some q → Prompt.id q ≠ VStr id)).
Proof.
  intros Hps. eexists. split.
  { unfold _find_prompt_index_by_id. run_monad. by rewrite Hps. }
  destruct (find_prompt_index_by_id_from_scan 0 ps id)
    as [[Hfind Hnone]|(i & p & Hfind & Hrest)].
  - by left.
  - right. exists i, p. by rewrite Hfind, Z.add_0_l.
Qed.

(** *** The reporting methods *)

Lemma get_prompts_one_filter st ps (f : option string) :
  prompts (self st) = Some ps →
  get_prompts f None None None st = (inr (filter_by f Prompt.id ps), st)
  ∧ get_prompts None f None None st = (inr (filter_by f Prompt.datapoint ps), st)
  ∧ get_prompts None None f None st = (inr (filter_by f Prompt.clause ps), st).
Proof. intros Hps. unfold get_prompts. run_monad. by rewrite Hps. Qed.

(** X13.  [get_prompts_info] with a search field other than "id",
    "datapoint" and "clause" returns the empty list and only prints; it
    does not even read the collection. *)
Theorem get_prompts_info_invalid_field search_term search_field st :
  search_field ≠ "id" → search_field ≠ "datapoint" → search_field ≠ "clause" →
  get_prompts_info search_term search_field st = (inr [], say InvalidSearchField st).
Proof.
  intros Hid Hdatapoint Hclause. unfold get_prompts_info.
  rewrite bool_decide_eq_true_2; [done|].
  rewrite !not_elem_of_cons. repeat split; try done. apply not_elem_of_nil.
Qed.

(** X14.  With a valid search field and a search term that is not empty,
    [get_prompts_info] returns the id, query prompt, notes and version of
    the records whose field equals the term, in the order of the
    collection, and changes nothing. *)
Theorem get_prompts_info_matches st ps search_term :
  prompts (self st) = Some ps →
  search_term ≠ EmptyString →
  get_prompts_info search_term "id" st
  = (inr (prompt_info <$> filter (λ p, py_eq_str (Prompt.id p) search_term) ps), st)
  ∧ get_prompts_info search_term "datapoint" st
    = (inr (prompt_info
              <$> filter (λ p, py_eq_str (Prompt.datapoint p) search_term) ps), st)
  ∧ get_prompts_info search_term "clause" st
    = (inr (prompt_info
              <$> filter (λ p, py_eq_str (Prompt.clause p) search_term) ps), st).
Proof.
  intros Hps Hterm.
  destruct (get_prompts_one_filter st ps (Some search_term) Hps) as (Hid & Hdp & Hcl).
  unfold get_prompts_info. simpl. unfold mbind, M_bind.
  rewrite Hid, Hdp, Hcl. simpl. by rewrite bool_decide_eq_true_2.
Qed.

(** X15.  With a valid search field and the empty search term,
    [get_prompts_info] reports every stored record: the empty term is
    passed to [get_prompts], which ignores it. *)
Theorem get_prompts_info_empty_term st ps search_field :
  prompts (self st) = Some ps →
  search_field ∈ ["id"; "datapoint"; "clause"] →
  get_prompts_info EmptyString search_field st = (inr (prompt_info <$> ps), st).
Proof.
  intros Hps Hfield.
  destruct (get_prompts_one_filter st ps (Some EmptyString) Hps) as (Hid & Hdp & Hcl).
  rewrite !elem_of_cons in Hfield.
  destruct Hfield as [->|[->|[->|Hfield]]]; [..|by apply not_elem_of_nil in Hfield];
    unfold get_prompts_info; simpl; unfold mbind, M_bind;
    by rewrite ?Hid, ?Hdp, ?Hcl.
Qed.

Lemma py_or_notes p :
  Prompt.is_opt_str (Prompt.notes p) = true →
  py_or (Prompt.notes p) (VStr EmptyString) = VStr (notes_text p).
Proof.
  unfold py_or, notes_text. destruct (Prompt.notes p) as [| | |s| | |]; try done.
  simpl. case_bool_decide as Hs; [done|]. by rewrite Hs.
Qed.

(** X16.  On a collection of valid records, [get_query_prompts_and_notes]
    returns, for the records with the given datapoint and in their order,
    the query prompt and the notes as text, the empty text standing for
    absent notes; it changes nothing. *)
Theorem get_query_prompts_and_notes_texts st ps datapoint :
  prompts (self st) = Some ps →
  Forall (λ p, Prompt.valid p = true) ps →
  get_query_prompts_and_notes datapoint st
  = (inr ((λ p, {[ "query_prompt" := Prompt.query_prompt p;
                   "notes" := VStr (notes_text p) ]})
          <$> filter (λ p, py_eq_str (Prompt.datapoint p) datapoint) ps), st).
Proof.
  intros Hps Hvalid. unfold get_query_prompts_and_notes. run_monad.
  rewrite Hps. do 2 f_equal.
  apply list_fmap_ext. intros k p Hk.
  apply list_elem_of_lookup_2, list_elem_of_filter in Hk as [_ Hp].
  rewrite Forall_forall in Hvalid. specialize (Hvalid p Hp).
  unfold Prompt.valid in Hvalid.
  repeat (apply andb_prop in Hvalid as [Hvalid ?]).
  unfold query_prompt_and_notes. by rewrite py_or_notes.
Qed.

(** X17.  Unlike [get_prompts], [get_query_prompts_and_notes] applies an
    empty datapoint as a filter: when no stored record has the empty
    datapoint it returns the empty list, while the query by the empty
    datapoint returns the whole collection. *)
Theorem get_query_prompts_and_notes_empty_datapoint st ps :
  prompts (self st) = Some ps →
  (∀ p, p ∈ ps → Prompt.datapoint p ≠ VStr EmptyString) →
  get_query_prompts_and_notes EmptyString st = (inr [], st)
  ∧ get_prompts None (Some EmptyString) None None st = (inr ps, st).
Proof.
  intros Hps Hnone. split.
  - unfold get_query_prompts_and_notes. run_monad. rewrite Hps.
    rewrite filter_no_match; [done|].
    intros p Hp Hmatch. apply (Hnone p Hp).
    destruct (Prompt.datapoint p); try done. simpl in Hmatch.
    by apply bool_decide_unpack in Hmatch as ->.
  - unfold get_prompts. run_monad. by rewrite Hps.
Qed.

(** *** Loading *)

(** X18.  [_load_prompts] returns the empty list in every state, also after
    construction, when [container_client] exists: it then stops at
    [self.local_file_path].  It never raises and changes nothing but the
    output. *)
Theorem load_prompts_always_empty st :
  ∃ attr,
    _load_prompts st = (inr [], say (ErrorLoading (AttributeError attr)) st)
    ∧ (is_Some (container_client (self st)) → attr = "local_file_path").
Proof.
  eexists. split; [apply load_prompts_run|].
  by intros [c ->].
Qed.

(** *** Create followed by a query of the lineage *)

Lemma filter_unique {A : Type} (P : A → Prop) `{!∀ x, Decision (P x)}
    (l : list A) (i : nat) (x : A) :
  l !! i = Some x → P x →
  (∀ j y, l !! j = Some y → P y → j = i) →
  filter P l = [x].
Proof.
  revert i. induction l as [|a l IH]; intros i Hi Hx Hone; [done|].
  destruct i as [|i]; simpl in Hi.
  - injection Hi as ->. rewrite filter_cons_True by done. f_equal.
    apply filter_no_match. intros y Hy HPy.
    apply list_elem_of_lookup in Hy as [j Hj].
    by specialize (Hone (S j) y Hj HPy).
  - rewrite filter_cons_False.
    + apply (IH i Hi Hx). intros j y Hj HPy.
      specialize (Hone (S j) y Hj HPy). lia.
    + intros Ha. by specialize (Hone 0%nat a eq_refl Ha).
Qed.

Lemma filter_by_key (l : list Prompt.t) D C :
  D ≠ EmptyString → C ≠ EmptyString →
  filter_by (Some C) Prompt.clause (filter_by (Some D) Prompt.datapoint l)
  = filter (λ p, has_key D C p) l.
Proof.
  intros HD HC. simpl. rewrite !bool_decide_eq_true_2 by done.
  rewrite list_filter_filter. apply list_filter_iff. intros p.
  unfold has_key. rewrite andb_True. tauto.
Qed.

Lemma get_prompts_run st ps id datapoint clause status :
  prompts (self st) = Some ps →
  get_prompts id datapoint clause status st
  = (inr (filter_by status Prompt.status
            (filter_by clause Prompt.clause
               (filter_by datapoint Prompt.datapoint (filter_by id Prompt.id ps)))),
     st).
Proof. intros Hps. unfold get_prompts. run_monad. by rewrite Hps. Qed.

(** X19.  After the second create of a lineage (one stored record with the
    key, an input that gives no status), the query by datapoint and clause
    returns the old record, now superseded, followed by the new one, and
    the same query with status "latest" returns the new record alone. *)
Theorem create_then_query_lineage st ps (i : nat) r D C V new_id prompt_data p0 :
  prompts (self st) = Some ps →
  ps !! i = Some r →
  Prompt.datapoint r = VStr D →
  Prompt.clause r = VStr C →
  Prompt.version r = VInt V →
  (∀ j q, ps !! j = Some q → has_key D C q = true → j = i) →
  D ≠ EmptyString → C ≠ EmptyString →
  prompt_data !! "datapoint" = Some (VStr D) →
  prompt_data !! "clause" = Some (VStr C) →
  prompt_data !! "status" = None →
  Prompt_new (<["id" := VStr new_id]> prompt_data) = inr p0 →
  ∃ new st',
    create_prompt new_id prompt_data st = (inr (Some new), st')
    ∧ get_prompts None (Some D) (Some C) None st'
      = (inr [Prompt.set_status (VStr "superseded") r; new], st')
    ∧ get_prompts None (Some D) (Some C) (Some "latest") st' = (inr [new], st').
Proof.
  intros Hps Hi HrD HrC HrV Hone HDne HCne HD HC Hstatus Hnew.
  destruct (Prompt_new_create _ _ _ _ _ Hnew HD HC) as (_ & Hp0D & Hp0C & Hp0S).
  rewrite Hstatus in Hp0S. simpl in Hp0S.
  assert (has_key D C r = true) as Hkey.
  { unfold has_key. by rewrite HrD, HrC, !py_eq_str_refl. }
  assert (find_prompt_index_from 0 ps D C None = Z.of_nat i) as Hfind.
  { rewrite (find_prompt_index_from_first 0 ps D C i r Hi Hkey); [lia|].
    intros j q Hj Hq. destruct (has_key D C q) eqn:Hq'; [|done].
    specialize (Hone j q Hq Hq'). lia. }
  set (r' := Prompt.set_status (VStr "superseded") r).
  set (new := Prompt.set_evaluated (VInt 0) (Prompt.set_version (VInt (V + 1)) p0)).
  assert (filter (λ p, has_key D C p) (<[i := r']> ps ++ [new]) = [r'; new]) as Hlineage.
  { rewrite filter_app, (filter_unique _ (<[i := r']> ps) i r').
    - rewrite filter_cons_True; [done|].
      unfold has_key, new. simpl. by rewrite Hp0D, Hp0C, !py_eq_str_refl.
    - apply list_lookup_insert_eq. by eapply lookup_lt_Some.
    - unfold has_key, r'. simpl. by rewrite HrD, HrC, !py_eq_str_refl.
    - intros j y Hj Hy. destruct (decide (j = i)) as [|Hne]; [done|].
      rewrite list_lookup_insert_ne in Hj by done.
      apply (Hone j y Hj). by apply Is_true_true. }
  pose proof (create_prompt_existing st ps new_id prompt_data p0 D C i r
                (VInt (V + 1)) Hps Hnew Hp0D Hp0C Hfind Hi
                ltac:(by rewrite HrV)) as Hrun.
  eexists new, _. split; [exact Hrun|].
  split.
  - rewrite (get_prompts_run _ (<[i := r']> ps ++ [new])) by done.
    cbn [filter_by]. fold (filter_by (Some D) Prompt.datapoint (<[i := r']> ps ++ [new])).
    fold (filter_by (Some C) Prompt.clause
            (filter_by (Some D) Prompt.datapoint (<[i := r']> ps ++ [new]))).
    by rewrite filter_by_key, Hlineage.
  - rewrite (get_prompts_run _ (<[i := r']> ps ++ [new])) by done.
    cbn [filter_by]. fold (filter_by (Some D) Prompt.datapoint (<[i := r']> ps ++ [new])).
    fold (filter_by (Some C) Prompt.clause
            (filter_by (Some D) Prompt.datapoint (<[i := r']> ps ++ [new]))).
    rewrite filter_by_key, Hlineage by done.
    rewrite bool_decide_eq_true_2 by done.
    rewrite filter_cons_False, filter_cons_True; [done| |].
    + unfold new. simpl. by rewrite Hp0S, py_eq_str_refl.
    + unfold r'. simpl. by intros [].
Qed.

End Further.

(** ** Concrete runs of the further properties *)

Lemma fresh_manager_records : prompts (self fresh_manager) = Some [].
Proof. by vm_compute. Qed.

Lemma unversioned_prompt_records :
  prompts (self unversioned_prompt) = Some [unversioned_record].
Proof. by vm_compute. Qed.

Lemma second_create_run :
  create_prompt (H := sample_lib) "id-2" rent_data_v2 one_prompt
  = (inr (Some (rent_prompt "id-2" 2 "latest" "Q2")), two_prompts).
Proof. by vm_compute. Qed.

Lemma collection_never_shrinks_witness :
  prompts (self one_prompt) = Some one_record
  ∧ (∃ ps', prompts (self (create_prompt (H := sample_lib) "id-2" rent_data_v2
                             one_prompt).2) = Some ps'
            ∧ (length one_record ≤ length ps')%nat)
  ∧ (∃ ps', prompts (self (update_prompt (H := sample_lib) "id-1"
                             {[ "notes" := VStr "final" ]} one_prompt).2) = Some ps'
            ∧ length ps' = length one_record).
Proof.
  destruct (collection_never_shrinks (H := sample_lib) one_prompt one_record
              one_prompt_records) as [Hcreate Hupdate].
  split; [exact one_prompt_records|]. split.
  - destruct (Hcreate "id-2" rent_data_v2) as (ps' & Hps' & _ & Hlength).
    exists ps'. split; assumption.
  - destruct (Hupdate "id-1" {[ "notes" := VStr "final" ]}) as (ps' & Hps' & _ & Hlength).
    exists ps'. split; assumption.
Defined.

Lemma create_keeps_records_valid_witness :
  prompts (self one_prompt) = Some one_record
  ∧ Forall (λ p, Prompt.valid p = true) one_record
  ∧ ∃ ps', prompts (self (create_prompt (H := sample_lib) "id-2" rent_data_v2
                            one_prompt).2) = Some ps'
           ∧ Forall (λ p, Prompt.valid p = true) ps'.
Proof.
  assert (Forall (λ p, Prompt.valid p = true) one_record) as Hvalid
    by (repeat constructor).
  split; [exact one_prompt_records|]. split; [exact Hvalid|].
  exact (create_keeps_records_valid (H := sample_lib) one_prompt one_record "id-2"
           rent_data_v2 one_prompt_records Hvalid).
Defined.

Lemma create_keeps_ids_unique_witness :
  prompts (self one_prompt) = Some one_record
  ∧ NoDup (Prompt.id <$> one_record)
  ∧ (VStr "id-2" ∉ Prompt.id <$> one_record)
  ∧ ∃ ps', prompts (self (create_prompt (H := sample_lib) "id-2" rent_data_v2
                            one_prompt).2) = Some ps'
           ∧ NoDup (Prompt.id <$> ps').
Proof.
  assert (NoDup (Prompt.id <$> one_record)) as Hnodup by apply NoDup_singleton.
  assert (VStr "id-2" ∉ Prompt.id <$> one_record) as Hfresh.
  { intros Hin. apply list_elem_of_singleton in Hin. discriminate Hin. }
  split; [exact one_prompt_records|]. split; [exact Hnodup|]. split; [exact Hfresh|].
  exact (create_keeps_ids_unique (H := sample_lib) one_prompt one_record "id-2"
           rent_data_v2 one_prompt_records Hnodup Hfresh).
Defined.

Lemma create_then_fetch_witness :
  prompts (self one_prompt) = Some one_record
  ∧ create_prompt (H := sample_lib) "id-2" rent_data_v2 one_prompt
    = (inr (Some (rent_prompt "id-2" 2 "latest" "Q2")), two_prompts)
  ∧ Prompt.id (rent_prompt "id-2" 2 "latest" "Q2") = VStr "id-2"
  ∧ get_prompts (Some "id-2") None None None two_prompts
    = (inr [rent_prompt "id-2" 2 "latest" "Q2"], two_prompts).
Proof.
  assert (∀ q, q ∈ one_record → py_eq_str (Prompt.id q) "id-2" = false) as Hfresh.
  { intros q Hq. apply list_elem_of_singleton in Hq. subst q. reflexivity. }
  split; [exact one_prompt_records|]. split; [exact second_create_run|].
  exact (create_then_fetch (H := sample_lib) one_prompt one_record "id-2" rent_data_v2
           (rent_prompt "id-2" 2 "latest" "Q2") two_prompts one_prompt_records
           ltac:(discriminate) Hfresh second_create_run).
Defined.

Lemma create_rejects_bad_required_field_witness :
  "clause" ∈ ["datapoint"; "clause"; "created_by"; "query_prompt"]
  ∧ Prompt.is_str (default VNone (rent_data_bad_clause !! "clause")) = false
  ∧ create_prompt (H := sample_lib) "id-2" rent_data_bad_clause one_prompt
    = (inr None, say (ValidationErrorCreating ValidationError) one_prompt).
Proof.
  assert ("clause" ∈ ["datapoint"; "clause"; "created_by"; "query_prompt"]) as Hkey.
  { apply list_elem_of_further, list_elem_of_here. }
  assert (Prompt.is_str (default VNone (rent_data_bad_clause !! "clause")) = false)
    as Hbad by (vm_compute; reflexivity).
  split; [exact Hkey|]. split; [exact Hbad|].
  exact (create_rejects_bad_required_field (H := sample_lib) one_prompt "id-2"
           rent_data_bad_clause "clause" Hkey Hbad).
Defined.

Lemma create_first_keeps_supplied_fields_witness :
  prompts (self fresh_manager) = Some []
  ∧ rent_data_rated !! "version" = Some (VInt 5)
  ∧ rent_data_rated !! "evaluated" = Some (VInt 1)
  ∧ Prompt_new (H := sample_lib) (<["id" := VStr "id-1"]> rent_data_rated)
    = inr rated_record
  ∧ (create_prompt (H := sample_lib) "id-1" rent_data_rated fresh_manager).1
    = inr (Some rated_record)
  ∧ Prompt.version rated_record = VInt 5
  ∧ Prompt.evaluated rated_record = VInt 1.
Proof.
  assert (∀ q, q ∈ @nil Prompt.t → has_key "What is the Rent?" "Rent" q = false)
    as Hnone.
  { intros q Hq. by apply not_elem_of_nil in Hq. }
  assert (rent_data_rated !! "version" = Some (VInt 5)) as Hversion
    by (vm_compute; reflexivity).
  assert (rent_data_rated !! "evaluated" = Some (VInt 1)) as Hevaluated
    by (vm_compute; reflexivity).
  assert (Prompt_new (H := sample_lib) (<["id" := VStr "id-1"]> rent_data_rated)
          = inr rated_record) as Hnew by (vm_compute; reflexivity).
  destruct (create_first_keeps_supplied_fields (H := sample_lib) fresh_manager []
              "What is the Rent?" "Rent" "id-1" rent_data_rated rated_record 5 1
              fresh_manager_records Hnone
              ltac:(vm_compute; reflexivity) ltac:(vm_compute; reflexivity)
              Hversion Hevaluated Hnew)
    as (Hrun & _ & Hv & He).
  split; [exact fresh_manager_records|]. split; [exact Hversion|].
  split; [exact Hevaluated|]. split; [exact Hnew|].
  split; [by rewrite Hrun|]. split; assumption.
Defined.

Lemma create_raises_on_unversioned_record_witness :
  prompts (self unversioned_prompt) = Some [unversioned_record]
  ∧ Prompt.version unversioned_record = VNone
  ∧ Prompt.valid unversioned_record = true
  ∧ create_prompt (H := sample_lib) "id-2" rent_data_v2 unversioned_prompt
    = (inl TypeError, unversioned_prompt).
Proof.
  split; [exact unversioned_prompt_records|]. split; [reflexivity|].
  split; [reflexivity|].
  apply (create_raises_on_unversioned_record (H := sample_lib) unversioned_prompt
           [unversioned_record] 0 unversioned_record "What is the Rent?" "Rent"
           "id-2" rent_data_v2 (rent_prompt "id-2" 1 "latest" "Q2")).
  - exact unversioned_prompt_records.
  - reflexivity.
  - reflexivity.
  - intros j q Hj. lia.
  - reflexivity.
  - vm_compute. reflexivity.
  - vm_compute. reflexivity.
  - vm_compute. reflexivity.
Defined.

Lemma update_unknown_id_witness :
  prompts (self one_prompt) = Some one_record
  ∧ update_prompt (H := sample_lib) "nobody" {[ "notes" := VStr "final" ]} one_prompt
    = (inr None, say (NoPromptFound "nobody") one_prompt).
Proof.
  split; [exact one_prompt_records|].
  apply (update_unknown_id (H := sample_lib) one_prompt one_record).
  - exact one_prompt_records.
  - intros q Hq. apply list_elem_of_singleton in Hq. subst q. reflexivity.
Defined.



Lemma find_prompt_index_first_match_witness :
  prompts (self two_prompts) = Some two_records
  ∧ _find_prompt_index "What is the Rent?" "Rent" None two_prompts
    = (inr 0, two_prompts)
  ∧ _find_prompt_index "What is the Rent?" "Rent" (Some "latest") two_prompts
    = (inr 1, two_prompts)
  ∧ ∃ answer,
      _find_prompt_index "What is the Rent?" "Rent" (Some "latest") two_prompts
      = (inr answer, two_prompts)
      ∧ ((answer = -1
          ∧ ∀ q, q ∈ two_records →
                 scan_match "What is the Rent?" "Rent" (Some "latest") q = false)
         ∨ (∃ (i : nat) p,
              answer = Z.of_nat i
              ∧ two_records !! i = Some p
              ∧ scan_match "What is the Rent?" "Rent" (Some "latest") p = true
              ∧ ∀ j q, (j < i)%nat → two_records !! j = Some q →
                       scan_match "What is the Rent?" "Rent" (Some "latest") q
                       = false)).
Proof.
  split; [exact two_prompts_records|].
  split; [vm_compute; reflexivity|]. split; [vm_compute; reflexivity|].
  exact (find_prompt_index_first_match two_prompts two_records "What is the Rent?"
           "Rent" (Some "latest") two_prompts_records).
Defined.

Lemma find_prompt_index_by_id_first_match_witness :
  prompts (self two_prompts) = Some two_records
  ∧ _find_prompt_index_by_id "id-2" two_prompts = (inr 1, two_prompts)
  ∧ ∃ answer,
      _find_prompt_index_by_id "id-2" two_prompts = (inr answer, two_prompts)
      ∧ ((answer = -1
          ∧ ∀ q, q ∈ two_records → py_eq_str (Prompt.id q) "id-2" = false)
         ∨ (∃ (i : nat) p,
              answer = Z.of_nat i
              ∧ two_records !! i = Some p
              ∧ Prompt.id p = VStr "id-2"
              ∧ ∀ j q, (j < i)%nat → two_records !! j = Some q →
                       Prompt.id q ≠ VStr "id-2")).
Proof.
  split; [exact two_prompts_records|]. split; [vm_compute; reflexivity|].
  exact (find_prompt_index_by_id_first_match two_prompts two_records "id-2"
           two_prompts_records).
Defined.

Lemma get_prompts_info_invalid_field_witness :
  "bogus_field" ≠ "id" ∧ "bogus_field" ≠ "datapoint" ∧ "bogus_field" ≠ "clause"
  ∧ get_prompts_info "anything" "bogus_field" two_prompts
    = (inr [], say InvalidSearchField two_prompts).
Proof.
  split; [discriminate|]. split; [discriminate|]. split; [discriminate|].
  exact (get_prompts_info_invalid_field "anything" "bogus_field" two_prompts
           ltac:(discriminate) ltac:(discriminate) ltac:(discriminate)).
Defined.

Lemma get_prompts_info_matches_witness :
  prompts (self two_prompts) = Some two_records
  ∧ get_prompts_info "Rent" "clause" two_prompts
    = (inr (prompt_info
              <$> filter (λ p, py_eq_str (Prompt.clause p) "Rent") two_records),
       two_prompts)
  ∧ prompt_info <$> filter (λ p, py_eq_str (Prompt.clause p) "Rent") two_records
    = [prompt_info (rent_prompt "id-1" 1 "superseded" "Q1");
       prompt_info (rent_prompt "id-2" 2 "latest" "Q2")].
Proof.
  split; [exact two_prompts_records|]. split; [|reflexivity].
  exact (proj2 (proj2 (get_prompts_info_matches two_prompts two_records "Rent"
                         two_prompts_records ltac:(discriminate)))).
Defined.

Lemma get_prompts_info_empty_term_witness :
  prompts (self two_prompts) = Some two_records
  ∧ "clause" ∈ ["id"; "datapoint"; "clause"]
  ∧ get_prompts_info EmptyString "clause" two_prompts
    = (inr (prompt_info <$> two_records), two_prompts).
Proof.
  assert ("clause" ∈ ["id"; "datapoint"; "clause"]) as Hfield.
  { apply list_elem_of_further, list_elem_of_further, list_elem_of_here. }
  split; [exact two_prompts_records|]. split; [exact Hfield|].
  exact (get_prompts_info_empty_term two_prompts two_records "clause"
           two_prompts_records Hfield).
Defined.

Lemma get_query_prompts_and_notes_texts_witness :
  prompts (self two_prompts) = Some two_records
  ∧ Forall (λ p, Prompt.valid p = true) two_records
  ∧ get_query_prompts_and_notes "What is the Rent?" two_prompts
    = (inr [ {[ "query_prompt" := VStr "Q1"; "notes" := VStr EmptyString ]};
             {[ "query_prompt" := VStr "Q2"; "notes" := VStr EmptyString ]} ],
       two_prompts).
Proof.
  assert (Forall (λ p, Prompt.valid p = true) two_records) as Hvalid
    by (repeat constructor).
  split; [exact two_prompts_records|]. split; [exact Hvalid|].
  exact (get_query_prompts_and_notes_texts two_prompts two_records
           "What is the Rent?" two_prompts_records Hvalid).
Defined.

Lemma get_query_prompts_and_notes_empty_datapoint_witness :
  prompts (self two_prompts) = Some two_records
  ∧ get_query_prompts_and_notes EmptyString two_prompts = (inr [], two_prompts)
  ∧ get_prompts None (Some EmptyString) None None two_prompts
    = (inr two_records, two_prompts).
Proof.
  assert (∀ p, p ∈ two_records → Prompt.datapoint p ≠ VStr EmptyString) as Hnone.
  { intros p Hp. unfold two_records in Hp. rewrite !elem_of_cons in Hp.
    destruct Hp as [->|[->|Hp]]; [discriminate|discriminate|].
    by apply not_elem_of_nil in Hp. }
  split; [exact two_prompts_records|].
  exact (get_query_prompts_and_notes_empty_datapoint two_prompts two_records
           two_prompts_records Hnone).
Defined.

Lemma create_then_query_lineage_witness :
  prompts (self one_prompt) = Some one_record
  ∧ rent_data_v2 !! "status" = None
  ∧ ∃ new st',
      create_prompt (H := sample_lib) "id-2" rent_data_v2 one_prompt
      = (inr (Some new), st')
      ∧ get_prompts None (Some "What is the Rent?") (Some "Rent") None st'
        = (inr [Prompt.set_status (VStr "superseded")
                  (rent_prompt "id-1" 1 "latest" "Q1"); new], st')
      ∧ get_prompts None (Some "What is the Rent?") (Some "Rent") (Some "latest") st'
        = (inr [new], st').
Proof.
  assert (∀ j q, one_record !! j = Some q →
            has_key "What is the Rent?" "Rent" q = true → j = 0%nat) as Hone.
  { intros [|[|j]] q Hq _; [reflexivity|discriminate Hq|discriminate Hq]. }
  assert (rent_data_v2 !! "status" = None) as Hstatus by (vm_compute; reflexivity).
  split; [exact one_prompt_records|]. split; [exact Hstatus|].
  apply (create_then_query_lineage (H := sample_lib) one_prompt one_record 0
           (rent_prompt "id-1" 1 "latest" "Q1") "What is the Rent?" "Rent" 1 "id-2"
           rent_data_v2 (rent_prompt "id-2" 1 "latest" "Q2")
           one_prompt_records eq_refl eq_refl eq_refl eq_refl Hone
           ltac:(discriminate) ltac:(discriminate)).
  - vm_compute. reflexivity.
  - vm_compute. reflexivity.
  - exact Hstatus.
  - vm_compute. reflexivity.
Defined.
